(** * crypto_history: the primitive data builder

    A shallow embedding of [crypto_history/core/primitive_data_builder.py]:
    the history obtainer, the dimensions manager and the data container
    operations, together with the parts of pandas and xarray they rely on. *)

From stdpp Require Import base gmap strings list list_numbers.
From Stdlib Require Import ZArith Lia.

Local Open Scope string_scope.
Local Open Scope list_scope.
Local Open Scope Z_scope.

(** ** Exceptions and results *)

(** The Python exceptions the module can raise or let through. *)
Inductive exn :=
| AssertionError (msg : string)
| EmptyDataFrameException
| IndexError
| ValueError
| KeyError
| TypeError
| MarketError (code : Z).

Inductive result (A : Type) :=
| Ok (a : A)
| Raise (e : exn).
Arguments Ok {A} a.
Arguments Raise {A} e.

Global Instance exn_eq_dec : EqDecision exn.
Proof. solve_decision. Defined.

(** ** Pandas: the part of [pd.DataFrame] the builder uses *)

(** One value of a table: [Null] is pandas' NaN/None, [Num x] is the number
    [x], held as an integer or, in a float64 column, as the float of that
    value, and [Text s] is a string. *)
Inductive cell :=
| Null
| Num (x : Z)
| Text (s : string).

Global Instance cell_eq_dec : EqDecision cell.
Proof. solve_decision. Defined.

(** One kline as handed over by the market homogenizer: its named fields in
    declaration order.  A raw history is the Python list of them. *)
Definition Kline := list (string * cell).
Definition RawHistory := list Kline.

(** A data frame, stored by column as pandas does: the row labels and, for
    every column, its name and its values (one per row label).  The dtype
    of a column is the one that its values make pandas infer. *)
Record DataFrame := {
  index : list Z;
  frame : list (string * list cell)
}.

Definition columns (df : DataFrame) : list string := (frame df).*1.

(** [df.shape] *)
Definition shape (df : DataFrame) : nat * nat :=
  (length (index df), length (frame df)).

(** [df.empty]: some axis has length zero. *)
Definition empty (df : DataFrame) : bool :=
  match shape df with
  | (O, _) | (_, O) => true
  | _ => false
  end.

(** [range(lo, hi)] *)
Definition range (lo hi : Z) : list Z := seqZ lo (hi - lo).

(** The conversion of an integer to float64: the nearest number with a
    significand of 53 bits, ties going to the even significand. *)
Definition double (x : Z) : Z :=
  let a := Z.abs x in
  if a <? 2 ^ 53 then x
  else
    let e := Z.log2 a - 52 in
    let q := a / 2 ^ e in
    let r := a mod 2 ^ e in
    let half := 2 ^ (e - 1) in
    let q' := if r <? half then q
              else if half <? r then q + 1
              else if Z.even q then q else q + 1 in
    Z.sgn x * (q' * 2 ^ e).

Definition as_float (c : cell) : cell :=
  match c with
  | Num x => Num (double x)
  | _ => c
  end.

(** The dtypes a column of the klines' values can take. *)
Inductive dtype :=
| Int64
| UInt64
| Float64
| Object.

Global Instance dtype_eq_dec : EqDecision dtype.
Proof. solve_decision. Defined.

(** What pandas has seen of a column while it infers the dtype. *)
Record Seen := {
  null_ : bool;
  int_ : bool;
  sint_ : bool;
  uint_ : bool
}.

(** The inference of the dtype of a column of Python values, read from left
    to right as pandas does: a string makes it an object column at once; an
    integer met before any null is checked against the 64-bit ranges, and one
    that is out of both, or a negative one beside one above the signed range,
    makes it an object column at once; at the end, integers beside nulls
    make it float64, integers alone int64 or uint64, and a column without
    integers is an object column. *)
Fixpoint maybe_convert_objects (col : list cell) (seen : Seen) : dtype :=
  match col with
  | [] =>
      if null_ seen then (if int_ seen then Float64 else Object)
      else if int_ seen then (if uint_ seen then UInt64 else Int64)
      else Object
  | Null :: rest =>
      maybe_convert_objects rest
        {| null_ := true; int_ := int_ seen; sint_ := sint_ seen; uint_ := uint_ seen |}
  | Text _ :: _ => Object
  | Num x :: rest =>
      if null_ seen then
        maybe_convert_objects rest
          {| null_ := true; int_ := true; sint_ := sint_ seen; uint_ := uint_ seen |}
      else
        let sint := sint_ seen || ((- 2 ^ 63 <=? x) && (x <? 0)) in
        let uint := uint_ seen || ((2 ^ 63 <=? x) && (x <? 2 ^ 64)) in
        if (uint && sint) || (2 ^ 64 <=? x) || (x <? - 2 ^ 63) then Object
        else maybe_convert_objects rest
               {| null_ := false; int_ := true; sint_ := sint; uint_ := uint |}
  end.

Definition dtype_of (col : list cell) : dtype :=
  maybe_convert_objects col
    {| null_ := false; int_ := false; sint_ := false; uint_ := false |}.

(** What the constructor does to a column: integers that stand beside nulls
    become floats. *)
Definition infer (col : list cell) : list cell :=
  match dtype_of col with
  | Float64 => map as_float col
  | _ => col
  end.

(** What a column becomes when missing values enter it: an integer column
    is converted to float64, the others keep their values. *)
Definition promote (col : list cell) : list cell :=
  match dtype_of col with
  | Int64 | UInt64 => map as_float col
  | _ => col
  end.

(** The frame that [pd.DataFrame(history)] builds from a list of records it
    accepts: a fresh [RangeIndex], the column names of the first record,
    values taken by position, [None] where a record is shorter. *)
Definition field_at (j : nat) (k : Kline) : cell := default Null (k.*2 !! j).

Definition new_DataFrame (history : RawHistory) : DataFrame :=
  match history with
  | [] => {| index := []; frame := [] |}
  | first :: _ =>
      {| index := range 0 (Z.of_nat (length history));
         frame := imap (fun j name => (name, infer (map (field_at j) history))) first.*1 |}
  end.

(** [pd.DataFrame(history)]: a record with more fields than the first one
    has names for makes the constructor raise the value error. *)
Definition pd_DataFrame (history : RawHistory) : result DataFrame :=
  match history with
  | [] => Ok (new_DataFrame history)
  | first :: rest =>
      if forallb (fun k => (length k <=? length first)%nat) rest
      then Ok (new_DataFrame history)
      else Raise ValueError
  end.

(** [Index.get_loc]: the position of a label, when present. *)
Fixpoint get_loc (labels : list Z) (label : Z) : option nat :=
  match labels with
  | [] => None
  | l :: rest => if bool_decide (l = label) then Some O else S <$> get_loc rest label
  end.

Definition take (col : list cell) (pos : option nat) : cell :=
  match pos with
  | Some i => default Null (col !! i)
  | None => Null
  end.

(** [df.reindex(new_index)]: rows are looked up by label, labels that are new
    get null cells, and when there are such labels the columns are promoted
    to hold them; pandas refuses to reindex an axis with duplicate labels. *)
Definition reindex (df : DataFrame) (new_index : list Z) : result DataFrame :=
  if bool_decide (new_index = index df) then Ok df
  else if bool_decide (NoDup (index df)) then
    let missing := existsb (fun l => bool_decide (get_loc (index df) l = None)) new_index in
    Ok {| index := new_index;
          frame := map (fun c =>
                          (c.1, map (fun l => take (if missing then promote c.2 else c.2)
                                                   (get_loc (index df) l))
                                    new_index))
                       (frame df) |}
  else Raise ValueError.

(** [df.drop(names, axis=1)] for names that are columns of [df]. *)
Definition drop (df : DataFrame) (names : list string) : DataFrame :=
  {| index := index df;
     frame := filter (fun c => c.1 ∉ names) (frame df) |}.

(** [df[name] = value] with a scalar: an existing column is overwritten in
    place, a new one is added on the right. *)
Definition setitem (df : DataFrame) (name : string) (value : cell) : DataFrame :=
  let filled := replicate (length (index df)) value in
  {| index := index df;
     frame := if bool_decide (name ∈ columns df)
              then map (fun c => if bool_decide (c.1 = name) then (c.1, filled) else c) (frame df)
              else frame df ++ [(name, filled)] |}.

(** [df.transpose().values]: one row per column of [df].  The values take
    the common dtype of the columns: when no column is an object column and
    they are not all int64 or all uint64, that dtype is float64. *)
Definition common_float (cols : list (list cell)) : bool :=
  let dtypes := map dtype_of cols in
  negb (existsb (fun d => bool_decide (d = Object)) dtypes)
  && negb (forallb (fun d => bool_decide (d = Int64)) dtypes)
  && negb (forallb (fun d => bool_decide (d = UInt64)) dtypes).

Definition transpose_values (df : DataFrame) : list (list cell) :=
  let rows := (frame df).*2 in
  if common_float rows then map (map as_float) rows else rows.

(** ** The static helpers of [PrimitiveDataContainerOperations] *)

Definition drop_unnecessary_columns_from_df
    (df : DataFrame) (necessary_columns : list string) : DataFrame :=
  let unnecessary_columns := filter (fun col => col ∉ necessary_columns) (columns df) in
  drop df unnecessary_columns.

Definition append_weight_column_to_df
    (df : DataFrame) (column_name : string) (column_value : cell) : DataFrame :=
  setitem df column_name column_value.

Definition calculate_rows_to_add (df : DataFrame) (list_of_standard_history : RawHistory) : Z :=
  let df_rows := (shape df).1 in
  let expected_rows := length list_of_standard_history in
  Z.of_nat expected_rows - Z.of_nat df_rows.

(** [df.index[-1]] raises [IndexError] on an empty index. *)
Definition add_extra_rows_to_bottom (df : DataFrame) (empty_rows_to_add : Z) : result DataFrame :=
  match last (index df) with
  | None => Raise IndexError
  | Some final =>
      let new_indices_to_add := range (final + 1) (final + 1 + empty_rows_to_add) in
      reindex df (index df ++ new_indices_to_add)
  end.

(** ** The exchange, seen through the market homogenizer *)

Record RawTicker := {
  symbol : string;
  baseAsset : string;
  quoteAsset : string
}.

Definition TickerPool := list RawTicker.

(** [Union[str, datetime]] *)
Inductive moment :=
| MomentStr (s : string)
| MomentDatetime (timestamp : Z).

(** The homogenizer is an external collaborator: what it answers may depend
    on when it is asked, so every call is given the number of calls made to
    the exchange before it. *)
Record MarketHarmonizer := {
  get_history_for_ticker :
    nat -> string -> string -> moment -> moment -> Z -> result RawHistory;
  harmonizer_get_all_raw_tickers : nat -> result TickerPool
}.

Record StockMarketFactory := {
  MarketRequester : Type;
  MarketOperations : Type;
  create_market_requester : MarketRequester;
  create_market_operations : MarketRequester -> MarketOperations;
  create_data_homogenizer : MarketOperations -> MarketHarmonizer
}.

Inductive request :=
| HistoryRequest (ticker : string)
| TickersRequest.

(** ** PrimitiveCoinHistoryObtainer *)

Record PrimitiveCoinHistoryObtainer := {
  market_harmonizer : MarketHarmonizer;
  interval : string;
  start_str : moment;
  end_str : moment;
  limit : Z;
  ticker_pool : option TickerPool;
  example_raw_history : option RawHistory
}.

Definition limit_message : string :=
  "Binance will not accept intervals greater than 1000. Reduce it!".

(** [PrimitiveCoinHistoryObtainer.__init__] *)
Definition new_PrimitiveCoinHistoryObtainer
    (exchange_factory : StockMarketFactory) (interval : string)
    (start_str end_str : moment) (limit : Z) : result PrimitiveCoinHistoryObtainer :=
  if limit <=? 1000 then
    let market_requester := create_market_requester exchange_factory in
    let market_operations := create_market_operations exchange_factory market_requester in
    Ok {| market_harmonizer := create_data_homogenizer exchange_factory market_operations;
          interval := interval;
          start_str := start_str;
          end_str := end_str;
          limit := limit;
          ticker_pool := None;
          example_raw_history := None |}
  else Raise (AssertionError limit_message).

(** ** Program state and the monad of the coroutines *)

(** Caller-owned Python lists are objects in a store, named by their
    address, so that two references to one list see each other's appends. *)
Record State := {
  obtainer : PrimitiveCoinHistoryObtainer;
  requests : list request;
  lists : gmap nat (list string)
}.

Definition M (A : Type) : Type := State -> result A * State.

Definition ret {A} (a : A) : M A := fun st => (Ok a, st).
Definition raise {A} (e : exn) : M A := fun st => (Raise e, st).
Definition bind {A B} (m : M A) (k : A -> M B) : M B :=
  fun st =>
    match m st with
    | (Ok a, st') => k a st'
    | (Raise e, st') => (Raise e, st')
    end.
Definition lift {A} (r : result A) : M A := fun st => (r, st).

(** [try: ... except]: the outcome of the body is handed to the handler. *)
Definition attempt {A} (m : M A) : M (result A) :=
  fun st => let (r, st') := m st in (Ok r, st').

Notation "'let!' x ':=' m 'in' k" := (bind m (fun x => k))
  (at level 10, x name, m at level 100, k at level 200).

(** [self.example_raw_history = h] *)
Definition with_example (st : State) (h : RawHistory) : State :=
  let o := obtainer st in
  {| obtainer := {| market_harmonizer := market_harmonizer o;
                    interval := interval o;
                    start_str := start_str o;
                    end_str := end_str o;
                    limit := limit o;
                    ticker_pool := ticker_pool o;
                    example_raw_history := Some h |};
     requests := requests st;
     lists := lists st |}.

Definition set_example_raw_history (h : RawHistory) : M unit :=
  fun st => (Ok tt, with_example st h).

(** Reading [self.example_raw_history] where a list is expected. *)
Definition get_example_raw_history : M RawHistory :=
  fun st =>
    match example_raw_history (obtainer st) with
    | Some h => (Ok h, st)
    | None => (Raise TypeError, st)
    end.

(** One call to the exchange: the answer is the homogenizer's, and the call
    is recorded. *)
Definition asked (st : State) (what : request) : State :=
  {| obtainer := obtainer st;
     requests := requests st ++ [what];
     lists := lists st |}.

Definition ask {A} (what : request) (answer : nat -> result A) : M A :=
  fun st => (answer (length (requests st)), asked st what).

(** What the homogenizer answers to the [n]-th call of the exchange when it
    is asked for the history of [ticker_symbol] with the obtainer's settings. *)
Definition history_answer (o : PrimitiveCoinHistoryObtainer) (ticker_symbol : string)
    (n : nat) : result RawHistory :=
  get_history_for_ticker (market_harmonizer o) n ticker_symbol
    (interval o) (start_str o) (end_str o) (limit o).

Definition _get_raw_history_for_ticker (ticker_symbol : string) : M RawHistory :=
  fun st => ask (HistoryRequest ticker_symbol) (history_answer (obtainer st) ticker_symbol) st.

(** Python truth value of [self.example_raw_history]: [None] and the empty
    list are both false. *)
Definition truthy (cached : option RawHistory) : option RawHistory :=
  match cached with
  | Some (k :: h) => Some (k :: h)
  | _ => None
  end.

Definition initialize_example : M RawHistory :=
  fun st =>
    (let! example :=
       match truthy (example_raw_history (obtainer st)) with
       | Some h => ret h
       | None => _get_raw_history_for_ticker "ETHBTC"
       end in
     let! _ := set_example_raw_history example in
     ret example) st.

Definition get_all_raw_tickers : M TickerPool :=
  fun st =>
    ask TickersRequest (harmonizer_get_all_raw_tickers (market_harmonizer (obtainer st))) st.

(** The body of the two nested loops of
    [get_historical_data_relevant_coins_from_base_and_reference_assets]. *)
Definition tickers_to_capture
    (base_assets reference_assets : list string) (raw_ticker_pool : TickerPool)
    : list (string * string) :=
  flat_map (fun base_asset =>
    flat_map (fun reference_asset =>
      if existsb (fun raw_ticker => String.eqb (base_asset +:+ reference_asset) (symbol raw_ticker))
                 raw_ticker_pool
      then [(base_asset, reference_asset)]
      else [])
      reference_assets)
    base_assets.

(** A Python [dict] keeps its keys in order of first insertion; assigning to
    a key that is present replaces the value where it stands. *)
Fixpoint dict_set {K V} `{EqDecision K} (d : list (K * V)) (k : K) (v : V) : list (K * V) :=
  match d with
  | [] => [(k, v)]
  | (k', v') :: rest =>
      if decide (k' = k) then (k', v) :: rest else (k', v') :: dict_set rest k v
  end.

(** Modelled from the spec: [general_utilities.gather_dict], which is not
    among the sources.  It starts every task of the dictionary, so that every
    fetch is asked for, waits for all of them and returns the dictionary of
    their results; when tasks fail, the call fails with the error of the
    first of them in the order of the dictionary. *)
Fixpoint gather_outcomes {K A} (tasks : list (K * M A))
    : State -> list (K * result A) * State :=
  match tasks with
  | [] => fun st => ([], st)
  | (k, task) :: rest =>
      fun st =>
        let (r, st1) := task st in
        let (others, st2) := gather_outcomes rest st1 in
        ((k, r) :: others, st2)
  end.

Fixpoint collect {K A} (outcomes : list (K * result A)) : result (list (K * A)) :=
  match outcomes with
  | [] => Ok []
  | (k, Raise e) :: _ => Raise e
  | (k, Ok a) :: rest =>
      match collect rest with
      | Ok others => Ok ((k, a) :: others)
      | Raise e => Raise e
      end
  end.

Definition gather_dict {K A} (tasks : list (K * M A)) : M (list (K * A)) :=
  fun st => let (outcomes, st') := gather_outcomes tasks st in (collect outcomes, st').

Definition _get_historical_data_relevant_coins (tickers_to_capture : list (string * string))
    : M (list ((string * string) * RawHistory)) :=
  let tasks_to_pursue :=
    foldl (fun tasks pair =>
             dict_set tasks pair (_get_raw_history_for_ticker (pair.1 +:+ pair.2)))
          [] tickers_to_capture in
  gather_dict tasks_to_pursue.

Definition get_historical_data_relevant_coins_from_base_and_reference_assets
    (base_assets reference_assets : list string) : M (list ((string * string) * RawHistory)) :=
  let! raw_ticker_pool := get_all_raw_tickers in
  _get_historical_data_relevant_coins
    (tickers_to_capture base_assets reference_assets raw_ticker_pool).

(** ** PrimitiveDimensionsManager *)

(** [ohlcv_fields] is the caller's list object itself, held by reference. *)
Record Dimensions := {
  base_assets : list string;
  reference_assets : list string;
  ohlcv_fields : nat;
  index_number : list Z
}.

Definition get_depth_of_indices : M (list Z) :=
  let! example_history := initialize_example in
  let indices := range 0 (Z.of_nat (length example_history)) in
  ret indices.

(** [some_list.append(item)] on the list object at [l]. *)
Definition list_append (l : nat) (item : string) : M unit :=
  fun st =>
    match lists st !! l with
    | Some items =>
        (Ok tt,
         {| obtainer := obtainer st;
            requests := requests st;
            lists := <[l := items ++ [item]]> (lists st) |})
    | None => (Raise TypeError, st)
    end.

Definition read_list (l : nat) : M (list string) :=
  fun st =>
    match lists st !! l with
    | Some items => (Ok items, st)
    | None => (Raise TypeError, st)
    end.

Definition get_dimension_coordinates_from_fields_and_assets
    (ohlcv_fields : nat) (base_assets reference_assets : list string) : M Dimensions :=
  let! index_number := get_depth_of_indices in
  let! _ := list_append ohlcv_fields "weight" in
  ret {| base_assets := base_assets;
         reference_assets := reference_assets;
         ohlcv_fields := ohlcv_fields;
         index_number := index_number |}.

(** ** Xarray: the labelled container *)

(** The four coordinate axes, copied when the array is built, and the data.
    The data of one (base asset, reference asset) pair is a matrix with one
    row per field and one entry per index number; a pair that is absent from
    [slots] holds [None] in every cell. *)
Record DataArray := {
  coord_base_assets : list string;
  coord_reference_assets : list string;
  coord_ohlcv_fields : list string;
  coord_index_number : list Z;
  slots : gmap (string * string) (list (list cell))
}.

(** [xr.DataArray(None, coords=coordinates, dims=dimensions)] *)
Definition set_coords_dimensions_in_empty_container
    (dataclass_dimensions_coordinates : Dimensions) : M DataArray :=
  let! fields := read_list (ohlcv_fields dataclass_dimensions_coordinates) in
  ret {| coord_base_assets := base_assets dataclass_dimensions_coordinates;
         coord_reference_assets := reference_assets dataclass_dimensions_coordinates;
         coord_ohlcv_fields := fields;
         coord_index_number := index_number dataclass_dimensions_coordinates;
         slots := ∅ |}.

(** Numpy broadcasting along one axis: the lengths agree, or the value has
    length one and is repeated. *)
Definition broadcast_to {A} (n : nat) (l : list A) : option (list A) :=
  if bool_decide (length l = n) then Some l
  else match l with
       | [x] => Some (replicate n x)
       | _ => None
       end.

Definition broadcast (value : list (list cell)) (n_fields n_index : nat)
    : option (list (list cell)) :=
  rows ← mapM (broadcast_to n_index) value;
  broadcast_to n_fields rows.

(** The array with the data of one pair replaced. *)
Definition with_slot (data_array : DataArray) (pair : string * string)
    (written : list (list cell)) : DataArray :=
  {| coord_base_assets := coord_base_assets data_array;
     coord_reference_assets := coord_reference_assets data_array;
     coord_ohlcv_fields := coord_ohlcv_fields data_array;
     coord_index_number := coord_index_number data_array;
     slots := <[pair := written]> (slots data_array) |}.

(** [data_array.loc[base_asset, reference_asset] = value]: both labels must
    be coordinates, and the value is written by position after broadcasting
    it to the shape of the slot. *)
Definition loc_setitem (data_array : DataArray) (base_asset reference_asset : string)
    (value : list (list cell)) : result DataArray :=
  if bool_decide (base_asset ∈ coord_base_assets data_array
                  ∧ reference_asset ∈ coord_reference_assets data_array) then
    match broadcast value (length (coord_ohlcv_fields data_array))
                          (length (coord_index_number data_array)) with
    | Some written => Ok (with_slot data_array (base_asset, reference_asset) written)
    | None => Raise ValueError
    end
  else Raise KeyError.

(** ** PrimitiveDataContainerOperations *)

Record PrimitiveDataContainerOperations := {
  ops_base_assets : list string;
  ops_reference_assets : list string;
  ops_ohlcv_fields : nat;
  ops_interval : string
}.

(** [PrimitiveDataContainerOperations.__init__]: the operations object and
    the history obtainer it creates. *)
Definition new_PrimitiveDataContainerOperations
    (exchange_factory : StockMarketFactory) (base_assets reference_assets : list string)
    (ohlcv_fields : nat) (interval : string) (start_str end_str : moment) (limit : Z)
    : result (PrimitiveDataContainerOperations * PrimitiveCoinHistoryObtainer) :=
  match new_PrimitiveCoinHistoryObtainer exchange_factory interval start_str end_str limit with
  | Ok history_obtainer =>
      Ok ({| ops_base_assets := base_assets;
             ops_reference_assets := reference_assets;
             ops_ohlcv_fields := ohlcv_fields;
             ops_interval := interval |}, history_obtainer)
  | Raise e => Raise e
  end.

(** The transpose of a frame without columns still has one entry per row
    of the frame, and that count has to fit the index axis. *)
Definition fits_without_columns (history_df : DataFrame) (n_index : nat) : bool :=
  match frame history_df with
  | [] => bool_decide (length (index history_df) = n_index
                       ∨ length (index history_df) = 1%nat)
  | _ => true
  end.

Definition _insert_coin_history_in_container
    (data_container : DataArray) (base_asset reference_asset : string)
    (history_df : DataFrame) : result DataArray :=
  match loc_setitem data_container base_asset reference_asset
          (transpose_values history_df) with
  | Ok written =>
      if fits_without_columns history_df (length (coord_index_number data_container))
      then Ok written
      else Raise ValueError
  | Raise e => Raise e
  end.

Definition pad_extra_rows_if_necessary (history_df : DataFrame) : M DataFrame :=
  let! _ := initialize_example in
  let! example := get_example_raw_history in
  let rows_to_add := calculate_rows_to_add history_df example in
  if 0 <? rows_to_add
  then lift (add_extra_rows_to_bottom history_df rows_to_add)
  else ret history_df.

Definition get_compatible_df (ticker_history : RawHistory) : M DataFrame :=
  let! history_df := lift (pd_DataFrame ticker_history) in
  if empty history_df then raise EmptyDataFrameException
  else
    let! padded_df := pad_extra_rows_if_necessary history_df in
    ret padded_df.

(** One turn of the loop of [populate_container]. *)
Definition populate_step (self : PrimitiveDataContainerOperations)
    (coord_dimension_dataclass : Dimensions) (data_container : DataArray)
    (item : (string * string) * RawHistory) : M DataArray :=
  let '((base_asset, reference_asset), ticker_raw_history) := item in
  let! outcome := attempt (get_compatible_df ticker_raw_history) in
  match outcome with
  | Raise EmptyDataFrameException => ret data_container
  | Raise e => raise e
  | Ok history_df =>
      let! necessary_columns := read_list (ohlcv_fields coord_dimension_dataclass) in
      let history_df := drop_unnecessary_columns_from_df history_df necessary_columns in
      let history_df := append_weight_column_to_df history_df "weight" (Text (ops_interval self)) in
      lift (_insert_coin_history_in_container data_container base_asset reference_asset history_df)
  end.

Fixpoint populate_loop (self : PrimitiveDataContainerOperations)
    (coord_dimension_dataclass : Dimensions) (data_container : DataArray)
    (historical_data : list ((string * string) * RawHistory)) : M DataArray :=
  match historical_data with
  | [] => ret data_container
  | item :: rest =>
      let! data_container :=
        populate_step self coord_dimension_dataclass data_container item in
      populate_loop self coord_dimension_dataclass data_container rest
  end.

Definition populate_container (self : PrimitiveDataContainerOperations)
    (data_container : DataArray) (coord_dimension_dataclass : Dimensions) : M DataArray :=
  let! historical_data :=
    get_historical_data_relevant_coins_from_base_and_reference_assets
      (base_assets coord_dimension_dataclass)
      (reference_assets coord_dimension_dataclass) in
  populate_loop self coord_dimension_dataclass data_container historical_data.

Definition get_populated_primitive_container (self : PrimitiveDataContainerOperations)
    : M DataArray :=
  let! coord_dimension_dataclass :=
    get_dimension_coordinates_from_fields_and_assets
      (ops_ohlcv_fields self) (ops_base_assets self) (ops_reference_assets self) in
  let! data_container := set_coords_dimensions_in_empty_container coord_dimension_dataclass in
  let! data_container := populate_container self data_container coord_dimension_dataclass in
  ret data_container.

(** ** The rest of the obtainer *)

(** The dictionary [tasks_to_pursue] that [_get_historical_data_relevant_coins]
    fills before it gathers: one task per pair. *)
Definition tasks_to_pursue (tickers_to_capture : list (string * string))
    : list ((string * string) * M RawHistory) :=
  foldl (fun tasks pair =>
           dict_set tasks pair (_get_raw_history_for_ticker (pair.1 +:+ pair.2)))
        [] tickers_to_capture.

(** [get_all_historical_data] hands [self.ticker_pool] over as the tickers to
    capture.  [None] cannot be iterated; how a ticker pool unpacks into pairs
    is the business of the [TickerPool] class, taken here as [unpack]. *)
Definition get_all_historical_data
    (unpack : TickerPool → result (list (string * string)))
    : M (list ((string * string) * RawHistory)) :=
  fun st =>
    match ticker_pool (obtainer st) with
    | None => raise TypeError st
    | Some pool =>
        (let! tickers_to_capture := lift (unpack pool) in
         _get_historical_data_relevant_coins tickers_to_capture) st
    end.

(** ** Notions used in the properties *)

(** A frame as [pd.DataFrame] builds it from a list of records: the labels
    are 0, 1, ... and every column has one value per label. *)
Definition fresh (df : DataFrame) : Prop :=
  index df = range 0 (Z.of_nat (length (index df)))
  ∧ Forall (fun c => length c.2 = length (index df)) (frame df).

(** A cell whose value a float holds exactly. *)
Definition keeps_value (c : cell) : Prop := as_float c = c.

(** A cell that holds an integer. *)
Definition integer_cell (c : cell) : Prop :=
  match c with
  | Num _ => True
  | _ => False
  end.

(** A raw history whose integers are those of 64-bit klines. *)
Definition int64_cell (c : cell) : Prop :=
  match c with
  | Num x => - 2 ^ 63 ≤ x < 2 ^ 63
  | _ => True
  end.

Definition int64_history (history : RawHistory) : Prop :=
  Forall (fun k : Kline => Forall (fun field => int64_cell field.2) k) history.

(** What one turn of the loop does to the container once the fate of its
    pair is known: the exception goes through, a pair without history leaves
    the container alone, a table is inserted at the pair. *)
Definition effect (pair : string * string) (outcome : result (option DataFrame))
    (dc : DataArray) : result DataArray :=
  match outcome with
  | Raise e => Raise e
  | Ok None => Ok dc
  | Ok (Some history_df) => _insert_coin_history_in_container dc pair.1 pair.2 history_df
  end.

(** The table that a turn of the loop makes of a normalized history, and
    the values it hands to the container. *)
Definition normalized_table (self : PrimitiveDataContainerOperations)
    (necessary_columns : list string) (history_df : DataFrame) : DataFrame :=
  append_weight_column_to_df
    (drop_unnecessary_columns_from_df history_df necessary_columns)
    "weight" (Text (ops_interval self)).

(** Two containers over the same axes. *)
Definition same_axes (a b : DataArray) : Prop :=
  coord_base_assets a = coord_base_assets b
  ∧ coord_reference_assets a = coord_reference_assets b
  ∧ coord_ohlcv_fields a = coord_ohlcv_fields b
  ∧ coord_index_number a = coord_index_number b.

(** The insertions of [populate_container] taken alone: the tables of the
    pairs go into the container one after the other. *)
Fixpoint insert_all (data_container : DataArray)
    (tables : list ((string * string) * DataFrame)) : result DataArray :=
  match tables with
  | [] => Ok data_container
  | (coin, history_df) :: rest =>
      match _insert_coin_history_in_container data_container coin.1 coin.2 history_df with
      | Ok data_container => insert_all data_container rest
      | Raise e => Raise e
      end
  end.

(** A loop over a list that stops at the first exception. *)
Fixpoint run_all {I : Type} (step : DataArray → I → result DataArray)
    (dc : DataArray) (l : list I) : result DataArray :=
  match l with
  | [] => Ok dc
  | i :: rest =>
      match step dc i with
      | Ok dc' => run_all step dc' rest
      | Raise e => Raise e
      end
  end.

(** ** Sample data *)

Definition sample_kline (open_ close_ : Z) : Kline :=
  [("open", Num open_); ("high", Num (open_ + close_)); ("close", Num close_)].

Definition sample_history : RawHistory :=
  [sample_kline 1 2; sample_kline 3 4; sample_kline 5 6].

Definition short_history : RawHistory := [sample_kline 7 8].

Definition sample_pool : TickerPool :=
  [ {| symbol := "ETHBTC"; baseAsset := "ETH"; quoteAsset := "BTC" |};
    {| symbol := "LTCBTC"; baseAsset := "LTC"; quoteAsset := "BTC" |} ].

(** A homogenizer that answers the history calls from a script indexed by the
    number of the call. *)
Definition scripted (script : nat -> result RawHistory) : MarketHarmonizer :=
  {| get_history_for_ticker := fun n _ _ _ _ _ => script n;
     harmonizer_get_all_raw_tickers := fun _ => Ok sample_pool |}.

Definition sample_factory (script : nat -> result RawHistory) : StockMarketFactory :=
  {| MarketRequester := unit;
     MarketOperations := unit;
     create_market_requester := tt;
     create_market_operations := fun _ => tt;
     create_data_homogenizer := fun _ => scripted script |}.

(** The state right after construction, with one caller-owned field list
    [["open"; "close"]] at address 0. *)
Definition fresh_state (script : nat -> result RawHistory) : State :=
  {| obtainer := {| market_harmonizer := scripted script;
                    interval := "1h";
                    start_str := MomentStr "1 Jan 2020";
                    end_str := MomentStr "1 Feb 2020";
                    limit := 500;
                    ticker_pool := None;
                    example_raw_history := None |};
     requests := [];
     lists := {[ 0%nat := ["open"; "close"] ]} |}.

(** The exchange has nothing for the first call and the sample history for
    every later one. *)
Definition empty_then_sample (n : nat) : result RawHistory :=
  match n with
  | O => Ok []
  | S _ => Ok sample_history
  end.

Definition always_sample (n : nat) : result RawHistory := Ok sample_history.

Definition always_down (n : nat) : result RawHistory := Raise (MarketError 503).

(** The state once the dimensions have been resolved: the example is cached
    and the field list has got its weight entry. *)
Definition resolved_state : State :=
  {| obtainer := {| market_harmonizer := scripted always_sample;
                    interval := "1h";
                    start_str := MomentStr "1 Jan 2020";
                    end_str := MomentStr "1 Feb 2020";
                    limit := 500;
                    ticker_pool := None;
                    example_raw_history := Some sample_history |};
     requests := [HistoryRequest "ETHBTC"];
     lists := {[ 0%nat := ["open"; "close"; "weight"] ]} |}.

Definition sample_operations : PrimitiveDataContainerOperations :=
  {| ops_base_assets := ["ETH"; "LTC"];
     ops_reference_assets := ["BTC"];
     ops_ohlcv_fields := 0%nat;
     ops_interval := "1h" |}.

Definition sample_dimensions : Dimensions :=
  {| base_assets := ["ETH"; "LTC"];
     reference_assets := ["BTC"];
     ohlcv_fields := 0%nat;
     index_number := [0; 1; 2] |}.

Definition sample_container : DataArray :=
  {| coord_base_assets := ["ETH"; "LTC"];
     coord_reference_assets := ["BTC"];
     coord_ohlcv_fields := ["open"; "close"; "weight"];
     coord_index_number := [0; 1; 2];
     slots := ∅ |}.

Definition second_history : RawHistory :=
  [sample_kline 2 1; sample_kline 4 3; sample_kline 6 5].

(** The normalized table of a history for the fields open and close. *)
Definition sample_table (history : RawHistory) : DataFrame :=
  append_weight_column_to_df
    (drop_unnecessary_columns_from_df (new_DataFrame history) ["open"; "close"; "weight"])
    "weight" (Text "1h").

(** A state with the example in the cache and an exchange that refuses to
    list its tickers. *)
Definition closed_exchange_state : State :=
  {| obtainer := {| market_harmonizer :=
                      {| get_history_for_ticker := fun _ _ _ _ _ _ => Ok sample_history;
                         harmonizer_get_all_raw_tickers := fun _ => Raise (MarketError 418) |};
                    interval := "1h";
                    start_str := MomentStr "1 Jan 2020";
                    end_str := MomentStr "1 Feb 2020";
                    limit := 500;
                    ticker_pool := None;
                    example_raw_history := Some sample_history |};
     requests := [HistoryRequest "ETHBTC"];
     lists := {[ 0%nat := ["open"; "close"] ]} |}.

(** The container that the sample build returns. *)
Definition get_populated_container_of_sample : DataArray :=
  match (get_populated_primitive_container sample_operations (fresh_state always_sample)).1 with
  | Ok dc => dc
  | Raise _ => sample_container
  end.

(** A single kline whose opening is an integer that no float holds. *)
Definition large_history : RawHistory := [[("open", Num (2 ^ 53 + 1))]].

(** A history whose second kline has a field more than the first. *)
Definition ragged_history : RawHistory :=
  [[("open", Num 1)]; [("open", Num 2); ("close", Num 3)]].

(** * Properties *)

(** Unfolds the plumbing of the monad in the goal. *)
Ltac run :=
  unfold bind, ret, raise, lift, attempt, ask, set_example_raw_history,
    get_example_raw_history, _get_raw_history_for_ticker; simpl.

(** ** The pair selector *)

Lemma symbol_listed (name : string) (pool : TickerPool) :
  existsb (fun raw_ticker => String.eqb name (symbol raw_ticker)) pool = true
  ↔ ∃ raw_ticker, raw_ticker ∈ pool ∧ symbol raw_ticker = name.
Proof.
  rewrite existsb_exists. split.
  - intros (t & Hin & Heq). exists t. split.
    + by apply list_elem_of_In.
    + symmetry. by apply String.eqb_eq.
  - intros (t & Hin & Heq). exists t. split.
    + by apply list_elem_of_In.
    + apply String.eqb_eq. by symmetry.
Qed.

(** C4: a pair is selected exactly when it belongs to the cartesian product of
    the two asset lists and the concatenation of its two names is the symbol
    of some ticker of the pool. *)
Theorem tickers_to_capture_iff
    (base_assets reference_assets : list string) (raw_ticker_pool : TickerPool)
    (base reference : string) :
  (base, reference) ∈ tickers_to_capture base_assets reference_assets raw_ticker_pool
  ↔ base ∈ base_assets ∧ reference ∈ reference_assets
    ∧ ∃ raw_ticker, raw_ticker ∈ raw_ticker_pool
                    ∧ symbol raw_ticker = base +:+ reference.
Proof.
  unfold tickers_to_capture.
  rewrite list_elem_of_In, in_flat_map. split.
  - intros (b & Hb & Hin). apply in_flat_map in Hin as (r & Hr & Hin).
    destruct (existsb _ raw_ticker_pool) eqn:Hany; [|by destruct Hin].
    destruct Hin as [Heq|[]]. injection Heq as -> ->.
    apply symbol_listed in Hany.
    rewrite !list_elem_of_In. done.
  - intros (Hb & Hr & Hany). exists base. split; [by apply list_elem_of_In|].
    apply in_flat_map. exists reference. split; [by apply list_elem_of_In|].
    apply symbol_listed in Hany. rewrite Hany. by left.
Qed.

Example tickers_to_capture_eth_ltc :
  tickers_to_capture ["ETH"; "LTC"; "XRP"] ["BTC"]
    [ {| symbol := "ETHBTC"; baseAsset := "ETH"; quoteAsset := "BTC" |};
      {| symbol := "LTCBTC"; baseAsset := "LTC"; quoteAsset := "BTC" |} ]
  = [("ETH", "BTC"); ("LTC", "BTC")].
Proof. reflexivity. Qed.

(** ** The dictionary of histories *)

Lemma dict_set_keys {V} (d : list ((string * string) * V)) (k : string * string) (v : V) :
  (dict_set d k v).*1 = if bool_decide (k ∈ d.*1) then d.*1 else d.*1 ++ [k].
Proof.
  induction d as [|[k' v'] rest IH]; [done|].
  cbn [dict_set]. destruct (decide (k' = k)) as [->|Hne]; rewrite !fmap_cons; cbn [fst].
  - rewrite bool_decide_eq_true_2; [done|by left].
  - rewrite IH. case_bool_decide as Hin.
    + rewrite bool_decide_eq_true_2; [done|by right].
    + rewrite bool_decide_eq_false_2; [done|].
      intros Hk. apply elem_of_cons in Hk as [Hk|Hk]; [by subst|done].
Qed.

Lemma tasks_keys {V} (task : string * string → V) (tickers : list (string * string))
    (d : list ((string * string) * V)) :
  NoDup d.*1 →
  NoDup (foldl (fun tasks p => dict_set tasks p (task p)) d tickers).*1
  ∧ ∀ p, p ∈ (foldl (fun tasks p => dict_set tasks p (task p)) d tickers).*1
         ↔ p ∈ d.*1 ∨ p ∈ tickers.
Proof.
  revert d. induction tickers as [|t rest IH]; intros d Hd; simpl.
  - split; [done|]. intros p. rewrite elem_of_nil. tauto.
  - assert (NoDup (dict_set d t (task t)).*1) as Hd'.
    { rewrite dict_set_keys. case_bool_decide as Hin; [done|].
      apply NoDup_app. split; [done|]. split; [|apply NoDup_singleton].
      intros p Hp Ht. by apply list_elem_of_singleton in Ht as ->. }
    destruct (IH _ Hd') as [Hnd Hiff]. split; [done|].
    intros p. rewrite Hiff, dict_set_keys, elem_of_cons.
    case_bool_decide as Hin.
    + split; [tauto|]. intros [?|[->|?]]; tauto.
    + rewrite elem_of_app, list_elem_of_singleton. tauto.
Qed.

Lemma collect_keys {A} (outcomes : list ((string * string) * result A))
    (data : list ((string * string) * A)) :
  collect outcomes = Ok data → data.*1 = outcomes.*1.
Proof.
  revert data. induction outcomes as [|[k [a|e]] rest IH]; intros data; simpl.
  - by intros [= <-].
  - destruct (collect rest) as [others|e]; [|done].
    intros [= <-]. simpl. f_equal. by apply IH.
  - done.
Qed.

Lemma gather_outcomes_keys {A} (tasks : list ((string * string) * M A)) (st : State) :
  (gather_outcomes tasks st).1.*1 = tasks.*1.
Proof.
  revert st. induction tasks as [|[k task] rest IH]; intros st; simpl; [done|].
  destruct (task st) as [r st1]. specialize (IH st1).
  destruct (gather_outcomes rest st1) as [others st2]. simpl in *. by f_equal.
Qed.

Lemma gather_dict_keys {A} (tasks : list ((string * string) * M A)) :
  ∀ st st' data, gather_dict tasks st = (Ok data, st') → data.*1 = tasks.*1.
Proof.
  intros st st' data. unfold gather_dict.
  pose proof (gather_outcomes_keys tasks st) as Hkeys.
  destruct (gather_outcomes tasks st) as [outcomes st1]. simpl in Hkeys.
  intros [= Hcollect _]. apply collect_keys in Hcollect. congruence.
Qed.

(** The histories come back under pairwise different pairs: the pairs that
    were to be captured. *)
Lemma historical_data_keys (tickers : list (string * string)) (st st' : State)
    (historical_data : list ((string * string) * RawHistory)) :
  _get_historical_data_relevant_coins tickers st = (Ok historical_data, st') →
  NoDup historical_data.*1 ∧ ∀ p, p ∈ historical_data.*1 ↔ p ∈ tickers.
Proof.
  unfold _get_historical_data_relevant_coins. intros Hgather.
  apply gather_dict_keys in Hgather. rewrite Hgather.
  destruct (tasks_keys (fun p => _get_raw_history_for_ticker (p.1 +:+ p.2)) tickers [])
    as [Hnd Hiff]; [constructor|].
  split; [done|]. intros p. rewrite Hiff, elem_of_nil. tauto.
Qed.

(** ** Construction *)

Lemma limit_check_fails
    (exchange_factory : StockMarketFactory) (itv : string) (from to : moment) (lim : Z) :
  1000 < lim →
  new_PrimitiveCoinHistoryObtainer exchange_factory itv from to lim
  = Raise (AssertionError limit_message).
Proof.
  intros Hlim. unfold new_PrimitiveCoinHistoryObtainer.
  destruct (Z.leb_spec lim 1000); [lia|done].
Qed.

(** C9: a limit above 1000 makes the construction of the history obtainer
    fail at once with the assertion error of the limit check; a limit of at
    most 1000 passes the check and the obtainer is built, with that limit and
    nothing cached. *)
Theorem limit_checked_at_construction
    (exchange_factory : StockMarketFactory) (itv : string) (from to : moment) (lim : Z) :
  (1000 < lim →
     new_PrimitiveCoinHistoryObtainer exchange_factory itv from to lim
     = Raise (AssertionError limit_message))
  ∧ (lim ≤ 1000 →
     ∃ o, new_PrimitiveCoinHistoryObtainer exchange_factory itv from to lim = Ok o
          ∧ limit o = lim ∧ interval o = itv ∧ example_raw_history o = None).
Proof.
  split; intros Hlim.
  - by apply limit_check_fails.
  - unfold new_PrimitiveCoinHistoryObtainer.
    destruct (Z.leb_spec lim 1000); [|lia]. eexists. done.
Qed.

Lemma limit_checked_at_construction_witness :
  new_PrimitiveCoinHistoryObtainer (sample_factory always_sample) "1h"
    (MomentStr "1 Jan 2020") (MomentStr "1 Feb 2020") 1001
  = Raise (AssertionError limit_message)
  ∧ ∃ o, new_PrimitiveCoinHistoryObtainer (sample_factory always_sample) "1h"
           (MomentStr "1 Jan 2020") (MomentStr "1 Feb 2020") 1000 = Ok o
         ∧ limit o = 1000 ∧ interval o = "1h" ∧ example_raw_history o = None.
Proof.
  split.
  - apply (proj1 (limit_checked_at_construction (sample_factory always_sample) "1h"
                    (MomentStr "1 Jan 2020") (MomentStr "1 Feb 2020") 1001)). lia.
  - apply (proj2 (limit_checked_at_construction (sample_factory always_sample) "1h"
                    (MomentStr "1 Jan 2020") (MomentStr "1 Feb 2020") 1000)). lia.
Defined.

(** The same check guards the caller-facing constructor. *)
Lemma operations_limit_checked
    (exchange_factory : StockMarketFactory) (bases refs : list string) (fields : nat)
    (itv : string) (from to : moment) (lim : Z) :
  1000 < lim →
  new_PrimitiveDataContainerOperations exchange_factory bases refs fields itv from to lim
  = Raise (AssertionError limit_message).
Proof.
  intros Hlim. unfold new_PrimitiveDataContainerOperations.
  by rewrite limit_check_fails.
Qed.

(** ** The example history *)

Lemma with_example_same (st : State) (h : RawHistory) :
  example_raw_history (obtainer st) = Some h → with_example st h = st.
Proof.
  destruct st as [[] ? ?]. simpl. intros ->. reflexivity.
Qed.

(** A non-empty cached example is returned as it is: no call is made and the
    state does not change. *)
Lemma initialize_example_cached (st : State) (k : Kline) (h : RawHistory) :
  example_raw_history (obtainer st) = Some (k :: h) →
  initialize_example st = (Ok (k :: h), st).
Proof.
  intros Hex. unfold initialize_example. rewrite Hex. run.
  by rewrite with_example_same.
Qed.

(** Without a cached example that is true in Python's sense, the history of
    ETHBTC is asked for, once. *)
Lemma initialize_example_fetches (st : State) :
  truthy (example_raw_history (obtainer st)) = None →
  initialize_example st =
    match history_answer (obtainer st) "ETHBTC" (length (requests st)) with
    | Ok h => (Ok h, with_example (asked st (HistoryRequest "ETHBTC")) h)
    | Raise e => (Raise e, asked st (HistoryRequest "ETHBTC"))
    end.
Proof.
  intros Hex. unfold initialize_example. rewrite Hex. run.
  by destruct (history_answer _ _ _).
Qed.

(** Whatever a successful call returns is what the obtainer then holds. *)
Lemma initialize_example_stores (st st' : State) (h : RawHistory) :
  initialize_example st = (Ok h, st') → example_raw_history (obtainer st') = Some h.
Proof.
  destruct (truthy (example_raw_history (obtainer st))) as [h0|] eqn:Hex.
  - destruct (example_raw_history (obtainer st)) as [[|k t]|] eqn:Hc; try done.
    rewrite (initialize_example_cached st k t Hc). by intros [= <- <-].
  - rewrite (initialize_example_fetches st Hex).
    destruct (history_answer _ _ _); [|done]. by intros [= <- <-].
Qed.

(** C6, at an example history without records: the first call succeeds and
    stores the empty list, and the second call asks the exchange again and
    returns something else. *)
Theorem initialize_example_empty_not_reused :
  ∃ st1 st2,
    initialize_example (fresh_state empty_then_sample) = (Ok [], st1)
    ∧ example_raw_history (obtainer st1) = Some []
    ∧ requests st1 = [HistoryRequest "ETHBTC"]
    ∧ initialize_example st1 = (Ok sample_history, st2)
    ∧ requests st2 = [HistoryRequest "ETHBTC"; HistoryRequest "ETHBTC"].
Proof.
  do 2 eexists. repeat split.
Qed.

(** ** The depth of the indices *)

Lemma range_from_zero (n : nat) : range 0 (Z.of_nat n) = Z.of_nat <$> seq 0 n.
Proof.
  unfold range, seqZ. rewrite Z.sub_0_r, Nat2Z.id.
  apply list_fmap_ext. intros _ i _. lia.
Qed.

(** C7: when the example history has n records the depth of the indices is
    the list 0, 1, ..., n-1; when the example has to be fetched and the
    exchange fails, that error is the outcome, after that single call. *)
Theorem get_depth_of_indices_spec (st : State) :
  (∀ h st', initialize_example st = (Ok h, st') →
     get_depth_of_indices st = (Ok (Z.of_nat <$> seq 0 (length h)), st'))
  ∧ (∀ e, truthy (example_raw_history (obtainer st)) = None →
     history_answer (obtainer st) "ETHBTC" (length (requests st)) = Raise e →
     get_depth_of_indices st = (Raise e, asked st (HistoryRequest "ETHBTC"))).
Proof.
  unfold get_depth_of_indices. split.
  - intros h st' Hinit. unfold bind. rewrite Hinit. run.
    by rewrite range_from_zero.
  - intros e Hex Hdown. unfold bind.
    rewrite (initialize_example_fetches st Hex), Hdown. done.
Qed.

Lemma get_depth_of_indices_spec_witness :
  get_depth_of_indices (fresh_state always_sample)
  = (Ok [0; 1; 2],
     with_example (asked (fresh_state always_sample) (HistoryRequest "ETHBTC")) sample_history)
  ∧ get_depth_of_indices (fresh_state always_down)
    = (Raise (MarketError 503), asked (fresh_state always_down) (HistoryRequest "ETHBTC")).
Proof.
  split.
  - apply (proj1 (get_depth_of_indices_spec (fresh_state always_sample)) sample_history).
    reflexivity.
  - apply (proj2 (get_depth_of_indices_spec (fresh_state always_down))); reflexivity.
Defined.

(** ** Row padding *)

Lemma get_loc_seqZ (a n label : Z) :
  get_loc (seqZ a n) label =
    if bool_decide (a ≤ label < a + n) then Some (Z.to_nat (label - a)) else None.
Proof.
  destruct (Z.le_gt_cases n 0) as [Hn|Hn].
  { rewrite seqZ_nil by done. simpl. case_bool_decide; [lia|done]. }
  rewrite <- (Z2Nat.id n) by lia. generalize (Z.to_nat n) as m. clear n Hn.
  intros m. revert a. induction m as [|m IH]; intros a.
  - simpl. case_bool_decide; [lia|done].
  - rewrite seqZ_cons by lia. cbn [get_loc].
    replace (Z.pred (Z.of_nat (S m))) with (Z.of_nat m) by lia.
    rewrite IH. repeat case_bool_decide; try lia; simpl.
    + f_equal. lia.
    + f_equal. lia.
    + done.
Qed.

Lemma length_range (n : nat) : length (range 0 (Z.of_nat n)) = n.
Proof. unfold range. rewrite length_seqZ. lia. Qed.

Lemma length_infer (col : list cell) : length (infer col) = length col.
Proof. unfold infer. destruct (dtype_of col); by rewrite ?length_map. Qed.

Lemma length_promote (col : list cell) : length (promote col) = length col.
Proof. unfold promote. destruct (dtype_of col); by rewrite ?length_map. Qed.

Lemma new_DataFrame_rows (h : RawHistory) : length (index (new_DataFrame h)) = length h.
Proof. destruct h as [|k h]; [done|]. simpl index. by rewrite length_range. Qed.

Lemma new_DataFrame_columns (k : Kline) (h : RawHistory) :
  columns (new_DataFrame (k :: h)) = k.*1.
Proof.
  unfold columns. simpl frame. generalize (k :: h) as records. intros records.
  generalize (k.*1) as names. intros names.
  rewrite fmap_imap. unfold compose. simpl.
  apply list_eq. intros i. rewrite list_lookup_imap.
  by destruct (names !! i).
Qed.

Lemma new_DataFrame_fresh (h : RawHistory) : fresh (new_DataFrame h).
Proof.
  split.
  - by rewrite new_DataFrame_rows; destruct h.
  - rewrite new_DataFrame_rows. destruct h as [|k h]; [by constructor|].
    simpl frame. apply Forall_forall. intros c Hc.
    apply elem_of_lookup_imap in Hc as (j & name & -> & _).
    cbn [snd]. by rewrite length_infer, <- (length_map (field_at j) (k :: h)).
Qed.

(** The constructor either refuses the records or builds their frame. *)
Lemma pd_DataFrame_Ok (h : RawHistory) (df : DataFrame) :
  pd_DataFrame h = Ok df → df = new_DataFrame h.
Proof.
  unfold pd_DataFrame. destruct h as [|first rest]; [by intros [= <-]|].
  by case (forallb _ rest); [intros [= <-]|].
Qed.

Lemma pd_DataFrame_outcomes (h : RawHistory) :
  pd_DataFrame h = Ok (new_DataFrame h) ∨ pd_DataFrame h = Raise ValueError.
Proof.
  unfold pd_DataFrame. destruct h as [|first rest]; [by left|].
  case (forallb _ rest); [by left|by right].
Qed.

Lemma pd_DataFrame_accepts (first : Kline) (rest : RawHistory) :
  Forall (fun k : Kline => (length k ≤ length first)%nat) rest →
  pd_DataFrame (first :: rest) = Ok (new_DataFrame (first :: rest)).
Proof.
  intros Hall. destruct (pd_DataFrame_outcomes (first :: rest)) as [Hok|Hno]; [done|].
  exfalso. revert Hno. unfold pd_DataFrame.
  match goal with |- context [forallb ?f rest] => destruct (forallb f rest) eqn:Hcheck end;
    [done|]. intros _.
  apply not_true_iff_false in Hcheck. apply Hcheck.
  apply forallb_forall. intros k Hk. apply Nat.leb_le.
  apply (proj1 (Forall_forall _ _) Hall). by apply list_elem_of_In.
Qed.

Lemma pd_DataFrame_refuses (first : Kline) (rest : RawHistory) :
  Exists (fun k : Kline => (length first < length k)%nat) rest →
  pd_DataFrame (first :: rest) = Raise ValueError.
Proof.
  intros Hsome. unfold pd_DataFrame.
  match goal with |- context [forallb ?f rest] => destruct (forallb f rest) eqn:Hcheck end;
    [|done]. exfalso.
  apply Exists_exists in Hsome as (k & Hk & Hlong).
  apply list_elem_of_In in Hk.
  apply (proj1 (forallb_forall _ _) Hcheck), Nat.leb_le in Hk. lia.
Qed.

Lemma fresh_last (df : DataFrame) :
  fresh df → index df ≠ [] → last (index df) = Some (Z.of_nat (length (index df)) - 1).
Proof.
  intros [Hidx _] Hne. rewrite Hidx at 1.
  destruct (length (index df)) as [|n] eqn:Hlen.
  { by destruct (index df). }
  unfold range. rewrite Z.sub_0_r, seqZ_S, last_snoc. f_equal. lia.
Qed.

(** Looking the old labels up gives the column back; the labels beyond the
    last one find nothing. *)
Lemma reindex_old_rows (n : nat) (col : list cell) :
  length col = n →
  map (fun l => take col (get_loc (range 0 (Z.of_nat n)) l)) (range 0 (Z.of_nat n)) = col.
Proof.
  intros Hlen. apply list_eq. intros i. rewrite list_lookup_fmap.
  unfold range. rewrite !Z.sub_0_r.
  destruct (decide (i < n)%nat) as [Hi|Hi].
  - rewrite lookup_seqZ_lt by lia. simpl. rewrite get_loc_seqZ.
    rewrite bool_decide_eq_true_2 by lia. simpl.
    replace (Z.to_nat (0 + Z.of_nat i - 0)) with i by lia.
    destruct (lookup_lt_is_Some_2 col i) as [x Hx]; [lia|]. by rewrite Hx.
  - rewrite lookup_seqZ_ge by lia. simpl. symmetry. apply lookup_ge_None. lia.
Qed.

Lemma reindex_new_rows (n extra : nat) (col : list cell) :
  map (fun l => take col (get_loc (range 0 (Z.of_nat n)) l))
      ((fun i => Z.of_nat n - 1 + 1 + Z.of_nat i) <$> seq 0 extra)
  = replicate extra Null.
Proof.
  apply list_eq. intros i. rewrite list_lookup_fmap, list_lookup_fmap.
  destruct (decide (i < extra)%nat) as [Hi|Hi].
  - rewrite lookup_seq_lt by done. simpl. unfold range. rewrite get_loc_seqZ.
    rewrite bool_decide_eq_false_2 by lia. simpl.
    symmetry. by apply lookup_replicate_2.
  - rewrite lookup_seq_ge by lia. simpl. symmetry.
    apply lookup_ge_None. rewrite length_replicate. lia.
Qed.

Lemma range_as_seq (lo : Z) (extra : nat) :
  range lo (lo + Z.of_nat extra) = (fun i => lo + Z.of_nat i) <$> seq 0 extra.
Proof.
  unfold range, seqZ. replace (lo + Z.of_nat extra - lo) with (Z.of_nat extra) by lia.
  rewrite Nat2Z.id. apply list_fmap_ext. intros _ i _. lia.
Qed.

(** As soon as rows are added to a fresh frame, some label is new. *)
Lemma fresh_labels_missing (n extra : nat) :
  (0 < extra)%nat →
  existsb (fun l => bool_decide (get_loc (range 0 (Z.of_nat n)) l = None))
    (range 0 (Z.of_nat n) ++ ((fun i => Z.of_nat n - 1 + 1 + Z.of_nat i) <$> seq 0 extra))
  = true.
Proof.
  intros Hextra. apply existsb_exists. exists (Z.of_nat n). split.
  - apply in_or_app. right. apply list_elem_of_In, list_elem_of_fmap.
    exists 0%nat. split; [lia|]. apply elem_of_seq. lia.
  - apply bool_decide_eq_true_2. unfold range. rewrite get_loc_seqZ.
    by rewrite bool_decide_eq_false_2 by lia.
Qed.

(** Adding rows to a fresh, non-empty frame: the labels go on counting after
    the last one and every column, promoted to hold missing values, gets
    that many null cells at its end. *)
Lemma add_extra_rows_to_bottom_fresh (df : DataFrame) (extra : nat) :
  fresh df → index df ≠ [] → (0 < extra)%nat →
  ∃ final,
    last (index df) = Some final
    ∧ add_extra_rows_to_bottom df (Z.of_nat extra)
      = Ok {| index := index df ++ ((fun i => final + 1 + Z.of_nat i) <$> seq 0 extra);
              frame := map (fun c => (c.1, promote c.2 ++ replicate extra Null)) (frame df) |}.
Proof.
  intros Hfresh Hne Hextra. exists (Z.of_nat (length (index df)) - 1).
  pose proof (fresh_last df Hfresh Hne) as Hlast. split; [done|].
  unfold add_extra_rows_to_bottom. rewrite Hlast. simpl.
  rewrite range_as_seq. unfold reindex.
  rewrite bool_decide_eq_false_2; last first.
  { intros Heq. apply (f_equal length) in Heq.
    rewrite length_app, length_fmap, length_seq in Heq. lia. }
  destruct Hfresh as [Hidx Hcols].
  rewrite bool_decide_eq_true_2; last first.
  { rewrite Hidx. apply NoDup_seqZ. }
  do 2 f_equal. apply map_ext_in. intros [name col] Hin. simpl. f_equal.
  rewrite Forall_forall in Hcols.
  assert (length col = length (index df)) as Hlen.
  { apply (Hcols (name, col)). by apply list_elem_of_In. }
  revert Hlen Hidx. generalize (length (index df)) as n. intros n Hlen Hidx.
  rewrite Hidx, (fresh_labels_missing n extra Hextra), map_app.
  rewrite (reindex_old_rows n (promote col)) by (by rewrite length_promote).
  f_equal. apply reindex_new_rows.
Qed.

(** Numbers that a float holds exactly are not changed by the promotion. *)
Lemma double_exact (x : Z) : Z.abs x ≤ 2 ^ 53 → double x = x.
Proof.
  intros Hx. unfold double. destruct (Z.ltb_spec (Z.abs x) (2 ^ 53)) as [Hlt|Hge]; [done|].
  assert (x = 2 ^ 53 ∨ x = - 2 ^ 53) as [-> | ->] by lia; reflexivity.
Qed.

Lemma promote_exact (col : list cell) : Forall keeps_value col → promote col = col.
Proof.
  intros Hcol. unfold promote.
  assert (map as_float col = col) as Hmap.
  { induction Hcol as [|c rest Hc Hrest IH]; [done|]. simpl. by rewrite Hc, IH. }
  destruct (dtype_of col); by rewrite ?Hmap.
Qed.

Lemma small_keeps_value (x : Z) : Z.abs x ≤ 2 ^ 53 → keeps_value (Num x).
Proof. intros Hx. unfold keeps_value. simpl. by rewrite double_exact. Qed.

(** The dtype of a column of 64-bit integers is int64, and only a column
    with a null is made a float64 column. *)
Lemma maybe_convert_objects_int64 (col : list cell) (seen : Seen) :
  null_ seen = false → uint_ seen = false →
  Forall (fun c => integer_cell c ∧ int64_cell c) col →
  maybe_convert_objects col seen = if int_ seen then Int64
                                   else match col with [] => Object | _ => Int64 end.
Proof.
  intros Hnull Huint Hcol. revert seen Hnull Huint.
  induction Hcol as [|c rest [Hc Hrange] Hrest IH]; intros seen Hnull Huint.
  - simpl. by rewrite Hnull, Huint.
  - destruct c as [|x|s]; try done. simpl in Hrange. cbn [maybe_convert_objects].
    rewrite Hnull, Huint.
    assert ((2 ^ 63 <=? x) = false) as -> by lia.
    assert ((2 ^ 64 <=? x) = false) as -> by lia.
    assert ((x <? - 2 ^ 63) = false) as -> by lia.
    cbn [andb orb]. rewrite IH by done. cbn [int_].
    by destruct (int_ seen).
Qed.

Lemma maybe_convert_objects_Float64 (col : list cell) (seen : Seen) :
  maybe_convert_objects col seen = Float64 → null_ seen = true ∨ Null ∈ col.
Proof.
  revert seen. induction col as [|c rest IH]; intros seen.
  - simpl. destruct (null_ seen); [by left|]. by destruct (int_ seen), (uint_ seen).
  - destruct c as [|x|s]; cbn [maybe_convert_objects].
    + intros _. right. by left.
    + destruct (null_ seen); [by left|].
      destruct (_ || _); [done|]. intros Hrest. apply IH in Hrest as [Hnull|Hin]; [done|].
      right. by right.
    + done.
Qed.

Lemma promote_integers (col : list cell) :
  Forall (fun c => integer_cell c ∧ int64_cell c) col →
  promote col = map as_float col.
Proof.
  intros Hcol. unfold promote, dtype_of.
  rewrite (maybe_convert_objects_int64 col) by done. simpl.
  by destruct col.
Qed.

(** The integers of a column of the frame of a history are integers of the
    history. *)
Lemma new_DataFrame_column (h : RawHistory) (c : string * list cell) :
  c ∈ frame (new_DataFrame h) → ∃ j, c.2 = infer (map (field_at j) h).
Proof.
  destruct h as [|first rest]; [by intros ?%elem_of_nil|].
  cbn [new_DataFrame frame]. intros (j & name & -> & _)%elem_of_lookup_imap.
  by exists j.
Qed.

Lemma new_DataFrame_integers (h : RawHistory) (c : string * list cell) :
  int64_history h →
  c ∈ frame (new_DataFrame h) →
  Forall integer_cell c.2 →
  Forall (fun v => integer_cell v ∧ int64_cell v) c.2.
Proof.
  intros Hh Hc. destruct (new_DataFrame_column h c Hc) as [j ->]. clear Hc.
  assert (Forall int64_cell (map (field_at j) h)) as Hrange.
  { apply Forall_forall. intros v Hv.
    apply list_elem_of_In, in_map_iff in Hv as (k & <- & Hk).
    apply list_elem_of_In in Hk.
    pose proof (proj1 (Forall_forall _ _) Hh k Hk) as Hfields.
    unfold field_at. destruct (k.*2 !! j) as [v|] eqn:Hv; [|done]. simpl.
    apply list_elem_of_lookup_2, list_elem_of_fmap in Hv as (field & -> & Hfield).
    by apply (proj1 (Forall_forall _ _) Hfields field). }
  revert Hrange. generalize (map (field_at j) h) as col. intros col Hrange Hints.
  assert (infer col = col) as Hsame.
  { unfold infer in *. destruct (dtype_of col) eqn:Hdtype; try done.
    exfalso. apply maybe_convert_objects_Float64 in Hdtype as [Hnull|Hnull]; [done|].
    apply list_elem_of_In, (in_map as_float), list_elem_of_In in Hnull.
    by apply (proj1 (Forall_forall _ _) Hints) in Hnull. }
  rewrite Hsame in *. apply Forall_and. by split.
Qed.

(** C1, amended: for the table that the constructor builds from a non-empty
    raw history of klines with 64-bit integers, and the depth of the example
    history: a table with fewer rows than the depth is returned with that
    many rows, the new ones at the bottom, labelled with the integers that
    follow the last label and holding only null cells, and with the cells of
    the table above them, the columns being promoted to hold the nulls:
    the integers of a column of integers become floats, which rounds those
    that a float does not hold exactly (they lie beyond 2^53) and keeps the
    others, so that a table of exactly held values is returned as it is,
    extended.  A table with at least as many rows as the depth is returned
    as it is. *)
Theorem pad_extra_rows_if_necessary_spec
    (ticker_history example : RawHistory) (history_df : DataFrame) (st st' : State) :
  ticker_history ≠ [] →
  int64_history ticker_history →
  pd_DataFrame ticker_history = Ok history_df →
  initialize_example st = (Ok example, st') →
  let actual_rows := length (index history_df) in
  let expected_rows := length example in
  ((actual_rows < expected_rows)%nat →
     ∃ final,
       last (index history_df) = Some final
       ∧ pad_extra_rows_if_necessary history_df st
         = (Ok {| index := index history_df
                             ++ ((fun i => final + 1 + Z.of_nat i)
                                   <$> seq 0 (expected_rows - actual_rows));
                  frame := map (fun c => (c.1, promote c.2
                                                 ++ replicate (expected_rows - actual_rows) Null))
                               (frame history_df) |},
            st')
       ∧ (∀ c, c ∈ frame history_df → Forall integer_cell c.2 →
            promote c.2 = map as_float c.2)
       ∧ (Forall (fun c => Forall keeps_value c.2) (frame history_df) →
          map (fun c => (c.1, promote c.2 ++ replicate (expected_rows - actual_rows) Null))
              (frame history_df)
          = map (fun c => (c.1, c.2 ++ replicate (expected_rows - actual_rows) Null))
                (frame history_df)))
  ∧ ((expected_rows ≤ actual_rows)%nat →
     pad_extra_rows_if_necessary history_df st = (Ok history_df, st')).
Proof.
  intros Hne Hint64 Hdf Hinit actual_rows expected_rows.
  apply pd_DataFrame_Ok in Hdf.
  assert (∀ rows_to_add,
            rows_to_add = calculate_rows_to_add history_df example →
            pad_extra_rows_if_necessary history_df st
            = (if 0 <? rows_to_add
               then add_extra_rows_to_bottom history_df rows_to_add
               else Ok history_df, st')) as Hpad.
  { intros ? ->. unfold pad_extra_rows_if_necessary, bind. rewrite Hinit.
    run. rewrite (initialize_example_stores _ _ _ Hinit).
    by destruct (0 <? _). }
  assert (calculate_rows_to_add history_df example
          = Z.of_nat expected_rows - Z.of_nat actual_rows) as Hrows by done.
  split; intros Hcmp.
  - destruct (add_extra_rows_to_bottom_fresh history_df (expected_rows - actual_rows))
      as (final & Hlast & Hadd).
    + rewrite Hdf. apply new_DataFrame_fresh.
    + intros Hnil. apply (f_equal length) in Hnil.
      rewrite Hdf, new_DataFrame_rows in Hnil. by destruct ticker_history.
    + lia.
    + exists final. split; [done|]. split; [|split].
      * rewrite (Hpad _ eq_refl), Hrows.
        destruct (Z.ltb_spec 0 (Z.of_nat expected_rows - Z.of_nat actual_rows)); [|lia].
        rewrite <- Hadd. do 2 f_equal. lia.
      * intros c Hc Hints. apply promote_integers.
        rewrite Hdf in Hc. by apply (new_DataFrame_integers ticker_history).
      * intros Hexact. apply map_ext_in. intros c Hc. f_equal. f_equal.
        apply promote_exact. rewrite Forall_forall in Hexact.
        apply Hexact. by apply list_elem_of_In.
  - rewrite (Hpad _ eq_refl), Hrows.
    by destruct (Z.ltb_spec 0 (Z.of_nat expected_rows - Z.of_nat actual_rows)); [lia|].
Qed.

Lemma pad_extra_rows_if_necessary_spec_witness :
  (∃ final,
     last (index (new_DataFrame short_history)) = Some final
     ∧ pad_extra_rows_if_necessary (new_DataFrame short_history) (fresh_state always_sample)
       = (Ok {| index := index (new_DataFrame short_history)
                           ++ ((fun i => final + 1 + Z.of_nat i) <$> seq 0 (3 - 1));
                frame := map (fun c => (c.1, promote c.2 ++ replicate (3 - 1) Null))
                             (frame (new_DataFrame short_history)) |},
          with_example (asked (fresh_state always_sample) (HistoryRequest "ETHBTC"))
            sample_history)
     ∧ (∀ c, c ∈ frame (new_DataFrame short_history) → Forall integer_cell c.2 →
          promote c.2 = map as_float c.2)
     ∧ (Forall (fun c => Forall keeps_value c.2) (frame (new_DataFrame short_history)) →
        map (fun c => (c.1, promote c.2 ++ replicate (3 - 1) Null))
            (frame (new_DataFrame short_history))
        = map (fun c => (c.1, c.2 ++ replicate (3 - 1) Null))
              (frame (new_DataFrame short_history))))
  ∧ pad_extra_rows_if_necessary (new_DataFrame sample_history) (fresh_state always_sample)
    = (Ok (new_DataFrame sample_history),
       with_example (asked (fresh_state always_sample) (HistoryRequest "ETHBTC"))
         sample_history).
Proof.
  split.
  - refine (proj1 (pad_extra_rows_if_necessary_spec short_history sample_history
                     (new_DataFrame short_history) (fresh_state always_sample) _
                     _ _ eq_refl eq_refl) _).
    + done.
    + repeat (constructor; simpl; try lia).
    + simpl. lia.
  - refine (proj2 (pad_extra_rows_if_necessary_spec sample_history sample_history
                     (new_DataFrame sample_history) (fresh_state always_sample) _
                     _ _ eq_refl eq_refl) _).
    + done.
    + repeat (constructor; simpl; try lia).
    + simpl. lia.
Defined.

Example pad_one_row_to_three :
  (pad_extra_rows_if_necessary (new_DataFrame short_history) (fresh_state always_sample)).1
  = Ok {| index := [0; 1; 2];
          frame := [("open", [Num 7; Null; Null]);
                    ("high", [Num 15; Null; Null]);
                    ("close", [Num 8; Null; Null])] |}.
Proof. reflexivity. Qed.

(** C1 as stated fails for an integer that a float does not hold exactly:
    the table of the single kline with 2^53 + 1 as its opening comes back
    from the padding with 2^53 in that cell, not extended but changed. *)
Lemma padding_rounds_large_integers :
  ∃ history_df padded st',
    pd_DataFrame large_history = Ok history_df
    ∧ pad_extra_rows_if_necessary history_df (fresh_state always_sample) = (Ok padded, st')
    ∧ index padded = [0; 1; 2]
    ∧ frame history_df = [("open", [Num 9007199254740993])]
    ∧ frame padded = [("open", [Num 9007199254740992; Null; Null])]
    ∧ frame padded ≠ map (fun c => (c.1, c.2 ++ replicate 2 Null)) (frame history_df).
Proof.
  do 3 eexists. split; [reflexivity|]. split; [reflexivity|].
  split; [reflexivity|]. split; [reflexivity|]. split; [reflexivity|].
  discriminate.
Qed.

(** ** Padding never meets an empty table *)

Lemma empty_false_last (df : DataFrame) :
  empty df = false → is_Some (last (index df)).
Proof.
  unfold empty, shape. destruct (index df) as [|l rest] eqn:Hidx; [done|].
  intros _. destruct (last_is_Some (l :: rest)) as [_ Hsome]. by apply Hsome.
Qed.

Lemma reindex_not_IndexError (df : DataFrame) (new_index : list Z) :
  reindex df new_index ≠ Raise IndexError.
Proof. unfold reindex. by repeat case_bool_decide. Qed.

(** C10: padding is reached only behind the constructor and the emptiness
    check of [get_compatible_df]: a history that the constructor refuses is
    not padded, an empty table raises the empty-history exception and is not
    padded, and a table that is padded has a last label, so that adding rows
    to it never raises the index error. *)
Theorem padding_only_on_non_empty_table (ticker_history : RawHistory) (st : State) :
  (∀ e, pd_DataFrame ticker_history = Raise e →
        get_compatible_df ticker_history st = (Raise e, st))
  ∧ (∀ history_df, pd_DataFrame ticker_history = Ok history_df →
       history_df = new_DataFrame ticker_history
       ∧ (empty history_df = true →
            get_compatible_df ticker_history st = (Raise EmptyDataFrameException, st))
       ∧ (empty history_df = false →
            get_compatible_df ticker_history st
            = pad_extra_rows_if_necessary history_df st
            ∧ is_Some (last (index history_df))
            ∧ ∀ empty_rows_to_add,
                add_extra_rows_to_bottom history_df empty_rows_to_add
                ≠ Raise IndexError)).
Proof.
  unfold get_compatible_df, bind, lift. split.
  - by intros e ->.
  - intros history_df Hdf. rewrite Hdf. split; [by apply pd_DataFrame_Ok|].
    split; intros Hempty; rewrite Hempty; [done|].
    split; [|split].
    + unfold ret. by destruct (pad_extra_rows_if_necessary _ st) as [[] ?].
    + by apply empty_false_last.
    + intros k. unfold add_extra_rows_to_bottom.
      destruct (empty_false_last _ Hempty) as [final ->].
      apply reindex_not_IndexError.
Qed.

Lemma padding_only_on_non_empty_table_witness :
  get_compatible_df ragged_history (fresh_state always_sample)
  = (Raise ValueError, fresh_state always_sample)
  ∧ get_compatible_df [] (fresh_state always_sample)
    = (Raise EmptyDataFrameException, fresh_state always_sample)
  ∧ get_compatible_df short_history (fresh_state always_sample)
    = pad_extra_rows_if_necessary (new_DataFrame short_history) (fresh_state always_sample)
  ∧ is_Some (last (index (new_DataFrame short_history)))
  ∧ ∀ empty_rows_to_add,
      add_extra_rows_to_bottom (new_DataFrame short_history) empty_rows_to_add
      ≠ Raise IndexError.
Proof.
  split; [|split].
  - apply (proj1 (padding_only_on_non_empty_table ragged_history
                    (fresh_state always_sample)) ValueError).
    reflexivity.
  - apply (proj2 (padding_only_on_non_empty_table [] (fresh_state always_sample))
             (new_DataFrame []) eq_refl).
    reflexivity.
  - apply (proj2 (padding_only_on_non_empty_table short_history (fresh_state always_sample))
             (new_DataFrame short_history) eq_refl).
    reflexivity.
Defined.

(** ** Columns of the normalized table *)

Lemma reindex_columns (df df' : DataFrame) (new_index : list Z) :
  reindex df new_index = Ok df' → columns df' = columns df.
Proof.
  unfold reindex, columns. repeat case_bool_decide; intros [= <-]; [done|].
  simpl. rewrite <- list_fmap_compose. by apply list_fmap_ext.
Qed.

(** What a successful normalization went through: the constructor built
    the frame of the history, which was not empty, and padded it. *)
Lemma get_compatible_df_Ok (ticker_history : RawHistory) (st st' : State) (df : DataFrame) :
  get_compatible_df ticker_history st = (Ok df, st') →
  pd_DataFrame ticker_history = Ok (new_DataFrame ticker_history)
  ∧ empty (new_DataFrame ticker_history) = false
  ∧ pad_extra_rows_if_necessary (new_DataFrame ticker_history) st = (Ok df, st').
Proof.
  unfold get_compatible_df, bind, lift.
  destruct (pd_DataFrame_outcomes ticker_history) as [-> | ->]; [|done].
  destruct (empty (new_DataFrame ticker_history)); [done|].
  unfold ret. destruct (pad_extra_rows_if_necessary _ st) as [[padded|e] st1]; [|done].
  by intros [= <- <-].
Qed.

Lemma get_compatible_df_columns (ticker_history : RawHistory) (st st' : State) (df : DataFrame) :
  get_compatible_df ticker_history st = (Ok df, st') →
  ticker_history ≠ [] ∧ columns df = columns (new_DataFrame ticker_history).
Proof.
  intros Hdf. apply get_compatible_df_Ok in Hdf as (_ & Hempty & Hpad).
  split; [by intros ->|]. revert Hpad.
  unfold pad_extra_rows_if_necessary, bind.
  destruct (initialize_example st) as [[example|e] st1]; [|done].
  run. destruct (example_raw_history (obtainer st1)); [|done].
  destruct (0 <? _); run.
  - unfold add_extra_rows_to_bottom.
    destruct (last _); [|done].
    destruct (reindex _ _) as [padded|e] eqn:Hre; [|done].
    intros [= <- <-]. by apply reindex_columns in Hre.
  - by intros [= <- <-].
Qed.

(** Dropping keeps the columns whose names are necessary, in their order. *)
Lemma drop_unnecessary_frame (df : DataFrame) (necessary_columns : list string) :
  frame (drop_unnecessary_columns_from_df df necessary_columns)
  = filter (fun c => c.1 ∈ necessary_columns) (frame df).
Proof.
  unfold drop_unnecessary_columns_from_df, drop, columns. simpl.
  assert (∀ c, c ∈ frame df → c.1 ∈ (frame df).*1) as Hall.
  { intros c Hc. apply list_elem_of_fmap. by exists c. }
  revert Hall. generalize ((frame df).*1) as names. intros names.
  induction (frame df) as [|c rest IH]; intros Hall; [done|].
  rewrite !filter_cons. rewrite IH by (intros; apply Hall; by right).
  assert (c.1 ∈ names) as Hc by (apply Hall; by left).
  destruct (decide (c.1 ∈ necessary_columns)) as [Hin|Hout].
  - rewrite decide_True; [done|]. rewrite list_elem_of_filter. tauto.
  - rewrite decide_False; [done|]. rewrite list_elem_of_filter. tauto.
Qed.

Lemma drop_unnecessary_columns (df : DataFrame) (necessary_columns : list string) :
  columns (drop_unnecessary_columns_from_df df necessary_columns)
  = filter (fun name => name ∈ necessary_columns) (columns df).
Proof.
  unfold columns. rewrite drop_unnecessary_frame.
  induction (frame df) as [|c rest IH]; [done|].
  rewrite fmap_cons, !filter_cons, <- IH. by destruct (decide _).
Qed.

(** Setting a column keeps the names when the column exists and adds the
    name on the right otherwise. *)
Lemma append_weight_columns (df : DataFrame) (name : string) (value : cell) :
  columns (append_weight_column_to_df df name value)
  = if bool_decide (name ∈ columns df) then columns df else columns df ++ [name].
Proof.
  unfold append_weight_column_to_df, setitem, columns. simpl.
  case_bool_decide.
  - rewrite <- list_fmap_compose. apply list_fmap_ext. intros _ c _. simpl.
    by case_bool_decide.
  - by rewrite fmap_app.
Qed.

Lemma append_weight_values (df : DataFrame) (name : string) (value : cell)
    (values : list cell) :
  (name, values) ∈ frame (append_weight_column_to_df df name value) →
  values = replicate (length (index df)) value.
Proof.
  unfold append_weight_column_to_df, setitem. simpl. case_bool_decide as Hin.
  - intros Hc. apply list_elem_of_fmap in Hc as (c & Heq & _).
    case_bool_decide as Hname; [by injection Heq|].
    destruct c as [n v]. simpl in *. by injection Heq as -> _.
  - intros Hc. apply elem_of_app in Hc as [Hc|Hc].
    + exfalso. apply Hin. unfold columns. apply list_elem_of_fmap. by exists (name, values).
    + apply list_elem_of_singleton in Hc. by injection Hc.
Qed.

(** When normalization succeeds, the turn of the loop inserts the table
    obtained by dropping the columns outside the field list of the
    dimensions and setting the weight column. *)
Lemma populate_step_inserts (self : PrimitiveDataContainerOperations) (dims : Dimensions)
    (dc : DataArray) (b r : string) (h : RawHistory) (st st' : State)
    (history_df : DataFrame) (necessary_columns : list string) :
  get_compatible_df h st = (Ok history_df, st') →
  lists st' !! ohlcv_fields dims = Some necessary_columns →
  populate_step self dims dc ((b, r), h) st
  = (_insert_coin_history_in_container dc b r
       (append_weight_column_to_df
          (drop_unnecessary_columns_from_df history_df necessary_columns)
          "weight" (Text (ops_interval self))),
     st').
Proof.
  intros Hdf Hfields. unfold populate_step, bind, attempt. rewrite Hdf.
  unfold read_list. by rewrite Hfields.
Qed.

(** C2, amended: when every requested field is a column of the raw source
    (whose records have distinct field names), the columns of the normalized
    table are the requested fields and one weight column, whatever else the
    source has, and every value of the weight column is the interval.  The
    drop check runs against the field list of the dimensions, to which the
    resolver has appended the weight entry. *)
Theorem normalized_table_columns
    (ticker_history : RawHistory) (st st' : State) (history_df : DataFrame)
    (fields : list string) (itv : string) :
  get_compatible_df ticker_history st = (Ok history_df, st') →
  NoDup (columns (new_DataFrame ticker_history)) →
  (∀ field, field ∈ fields → field ∈ columns (new_DataFrame ticker_history)) →
  let table :=
    append_weight_column_to_df
      (drop_unnecessary_columns_from_df history_df (fields ++ ["weight"]))
      "weight" (Text itv) in
  (∀ name, name ∈ columns table ↔ name ∈ fields ∨ name = "weight")
  ∧ NoDup (columns table)
  ∧ ∀ values, ("weight", values) ∈ frame table
              → values = replicate (length (index table)) (Text itv).
Proof.
  intros Hdf Hdistinct Hfields table.
  apply get_compatible_df_columns in Hdf as [_ Hcols]. rewrite <- Hcols in *.
  assert (columns table
          = let kept := filter (fun name => name ∈ fields ++ ["weight"]) (columns history_df) in
            if bool_decide ("weight" ∈ kept) then kept else kept ++ ["weight"]) as Htable.
  { unfold table. by rewrite append_weight_columns, drop_unnecessary_columns. }
  simpl in Htable. split; [|split].
  - intros name. rewrite Htable. case_bool_decide as Hweight.
    + rewrite list_elem_of_filter, elem_of_app, list_elem_of_singleton. split.
      * tauto.
      * intros [Hin| ->]; [by auto|].
        apply list_elem_of_filter in Hweight. tauto.
    + rewrite elem_of_app, list_elem_of_filter, elem_of_app, !list_elem_of_singleton.
      split; [tauto|]. intros [Hin| ->]; [by auto|by right].
  - rewrite Htable. case_bool_decide as Hweight.
    + by apply NoDup_filter.
    + apply NoDup_app. split; [by apply NoDup_filter|]. split; [|apply NoDup_singleton].
      intros name Hin Hname. apply list_elem_of_singleton in Hname as ->. done.
  - intros values Hin. by apply append_weight_values in Hin.
Qed.

Lemma normalized_table_columns_witness :
  let table :=
    append_weight_column_to_df
      (drop_unnecessary_columns_from_df (new_DataFrame sample_history) (["open"; "close"] ++ ["weight"]))
      "weight" (Text "1h") in
  (∀ name, name ∈ columns table ↔ name ∈ ["open"; "close"] ∨ name = "weight")
  ∧ NoDup (columns table)
  ∧ ∀ values, ("weight", values) ∈ frame table
              → values = replicate (length (index table)) (Text "1h").
Proof.
  apply (normalized_table_columns sample_history (fresh_state always_sample)
           (with_example (asked (fresh_state always_sample) (HistoryRequest "ETHBTC"))
              sample_history)
           (new_DataFrame sample_history) ["open"; "close"] "1h").
  - reflexivity.
  - refine (bool_decide_unpack _ _). vm_compute. exact I.
  - intros field Hin.
    repeat (apply elem_of_cons in Hin as [->|Hin];
            [refine (bool_decide_unpack _ _); vm_compute; exact I|]).
    by apply elem_of_nil in Hin.
Defined.

(** C2 as stated fails when a requested field is not among the columns of
    the source: it is not a column of the normalized table either. *)
Lemma requested_field_absent_from_source :
  ∃ history_df st',
    get_compatible_df sample_history (fresh_state always_sample) = (Ok history_df, st')
    ∧ columns (append_weight_column_to_df
                 (drop_unnecessary_columns_from_df history_df (["open"; "volume"] ++ ["weight"]))
                 "weight" (Text "1h"))
      = ["open"; "weight"]
    ∧ ¬ (∀ name,
           name ∈ columns (append_weight_column_to_df
                             (drop_unnecessary_columns_from_df history_df
                                (["open"; "volume"] ++ ["weight"]))
                             "weight" (Text "1h"))
           ↔ name ∈ ["open"; "volume"] ∨ name = "weight").
Proof.
  do 2 eexists. split; [reflexivity|]. split; [reflexivity|].
  intros Hall. specialize (Hall "volume").
  assert ("volume" ∈ ["open"; "weight"]) as Hin.
  { apply Hall. left. refine (bool_decide_unpack _ _). vm_compute. exact I. }
  apply (bool_decide_pack _) in Hin. vm_compute in Hin. exact Hin.
Qed.

(** ** Empty histories *)

Lemma get_compatible_df_empty (st : State) :
  get_compatible_df [] st = (Raise EmptyDataFrameException, st).
Proof. reflexivity. Qed.

Lemma populate_step_empty (self : PrimitiveDataContainerOperations) (dims : Dimensions)
    (dc : DataArray) (pair : string * string) (st : State) :
  populate_step self dims dc (pair, []) st = (Ok dc, st).
Proof. by destruct pair. Qed.

(** The outcome of [loc_setitem], spelled out. *)
Lemma loc_setitem_Ok (dc c : DataArray) (b r : string) (value : list (list cell)) :
  loc_setitem dc b r value = Ok c
  ↔ b ∈ coord_base_assets dc ∧ r ∈ coord_reference_assets dc
    ∧ ∃ written,
        broadcast value (length (coord_ohlcv_fields dc)) (length (coord_index_number dc))
        = Some written
        ∧ c = with_slot dc (b, r) written.
Proof.
  unfold loc_setitem. case_bool_decide as Hlabels.
  - destruct (broadcast _ _ _) as [written|].
    + split.
      * intros [= <-]. destruct Hlabels. eauto.
      * intros (_ & _ & w & [= <-] & ->). done.
    + split; [done|]. by intros (_ & _ & w & ? & _).
  - split; [done|]. intros (? & ? & _). tauto.
Qed.

(** The outcome of the insertion, spelled out. *)
Lemma insert_coin_history_Ok (dc c : DataArray) (b r : string) (history_df : DataFrame) :
  _insert_coin_history_in_container dc b r history_df = Ok c
  ↔ loc_setitem dc b r (transpose_values history_df) = Ok c
    ∧ fits_without_columns history_df (length (coord_index_number dc)) = true.
Proof.
  unfold _insert_coin_history_in_container.
  destruct (loc_setitem dc b r _) as [written|e];
    destruct (fits_without_columns _ _); split; try done; by intros [? ?].
Qed.

(** A table with a column fits for what concerns the tables without. *)
Lemma fits_with_columns (history_df : DataFrame) (n_index : nat) :
  frame history_df ≠ [] → fits_without_columns history_df n_index = true.
Proof. unfold fits_without_columns. by destruct (frame history_df). Qed.

Lemma append_weight_frame_nonempty (df : DataFrame) (name : string) (value : cell) :
  frame (append_weight_column_to_df df name value) ≠ [].
Proof.
  unfold append_weight_column_to_df, setitem. simpl. case_bool_decide as Hin.
  - intros Hnil. apply fmap_nil_inv in Hnil. unfold columns in Hin.
    rewrite Hnil in Hin. by apply elem_of_nil in Hin.
  - by destruct (frame df).
Qed.

(** A column of strings is an object column, and so the values of a table
    with the weight column are those of its columns. *)
Lemma dtype_of_texts (n : nat) (s : string) : dtype_of (replicate n (Text s)) = Object.
Proof. by destruct n. Qed.

Lemma common_float_object (cols : list (list cell)) (col : list cell) :
  col ∈ cols → dtype_of col = Object → common_float cols = false.
Proof.
  intros Hin Hobject. unfold common_float.
  assert (existsb (fun d => bool_decide (d = Object)) (map dtype_of cols) = true) as ->; [|done].
  apply existsb_exists. exists Object. split; [|done].
  rewrite <- Hobject. apply in_map. by apply list_elem_of_In.
Qed.

Lemma weight_column_present (df : DataFrame) (value : cell) :
  ("weight", replicate (length (index df)) value)
  ∈ frame (append_weight_column_to_df df "weight" value).
Proof.
  unfold append_weight_column_to_df, setitem. simpl. case_bool_decide as Hin.
  - unfold columns in Hin. apply list_elem_of_fmap in Hin as ([name values] & Hname & Hin).
    simpl in Hname. subst name. apply list_elem_of_fmap.
    exists ("weight", values). split; [|done]. by rewrite bool_decide_eq_true_2.
  - apply elem_of_app. right. by left.
Qed.

Lemma transpose_values_with_weight (df : DataFrame) (s : string) :
  transpose_values (append_weight_column_to_df df "weight" (Text s))
  = (frame (append_weight_column_to_df df "weight" (Text s))).*2.
Proof.
  unfold transpose_values.
  rewrite (common_float_object _ (replicate (length (index df)) (Text s))); [done| |].
  - apply list_elem_of_fmap. exists ("weight", replicate (length (index df)) (Text s)).
    split; [done|]. apply weight_column_present.
  - apply dtype_of_texts.
Qed.

(** One turn of the loop changes at most the slot of its own pair. *)
Lemma populate_step_other_slot (self : PrimitiveDataContainerOperations) (dims : Dimensions)
    (dc dc' : DataArray) (item : (string * string) * RawHistory) (st st' : State)
    (pair : string * string) :
  item.1 ≠ pair →
  populate_step self dims dc item st = (Ok dc', st') →
  slots dc' !! pair = slots dc !! pair.
Proof.
  destruct item as [[b r] h]. simpl. intros Hne. unfold populate_step. run.
  destruct (get_compatible_df h st) as [[df|e] st1].
  - unfold read_list. destruct (lists st1 !! _); [|done].
    intros [= Hset <-].
    apply insert_coin_history_Ok in Hset as [Hset _].
    apply loc_setitem_Ok in Hset as (_ & _ & w & _ & ->). simpl.
    by rewrite lookup_insert_ne.
  - destruct e; try done. by intros [= <- <-].
Qed.

Lemma populate_loop_other_slots (self : PrimitiveDataContainerOperations) (dims : Dimensions)
    (items : list ((string * string) * RawHistory)) (pair : string * string) :
  Forall (fun item => item.1 ≠ pair) items →
  ∀ dc dc' st st',
    populate_loop self dims dc items st = (Ok dc', st') →
    slots dc' !! pair = slots dc !! pair.
Proof.
  induction 1 as [|item rest Hitem Hrest IH]; intros dc dc' st st'; simpl.
  - by intros [= <- <-].
  - unfold bind.
    destruct (populate_step self dims dc item st) as [[dc1|e] st1] eqn:Hstep; [|done].
    intros Hloop. rewrite (IH _ _ _ _ Hloop).
    by apply (populate_step_other_slot _ _ _ _ _ _ _ _ Hitem Hstep).
Qed.

(** Leaving out the pairs without history does not change the run. *)
Lemma populate_loop_skips (self : PrimitiveDataContainerOperations) (dims : Dimensions)
    (items : list ((string * string) * RawHistory)) (pair : string * string) :
  (∀ h, (pair, h) ∈ items → h = []) →
  ∀ dc st,
    populate_loop self dims dc items st
    = populate_loop self dims dc (filter (fun item => item.1 ≠ pair) items) st.
Proof.
  induction items as [|[key h] rest IH]; intros Hempty dc st; [done|].
  assert (∀ h', (pair, h') ∈ rest → h' = []) as Hrest.
  { intros h' Hin. apply Hempty. by right. }
  rewrite filter_cons. destruct (decide (key = pair)) as [->|Hne].
  - rewrite decide_False by (simpl; tauto).
    rewrite (Hempty h) by left. cbn [populate_loop]. unfold bind.
    rewrite populate_step_empty. by apply IH.
  - rewrite decide_True by done. cbn [populate_loop]. unfold bind.
    destruct (populate_step self dims dc (key, h) st) as [[dc1|e] st1]; [|done].
    by apply IH.
Qed.

Lemma unique_key {K V} (items : list (K * V)) (key : K) (v1 v2 : V) :
  NoDup items.*1 → (key, v1) ∈ items → (key, v2) ∈ items → v1 = v2.
Proof.
  induction items as [|[k v] rest IH]; simpl; intros Hnd H1 H2.
  - by apply elem_of_nil in H1.
  - apply NoDup_cons in Hnd as [Hfresh Hnd].
    apply elem_of_cons in H1 as [H1|H1]; apply elem_of_cons in H2 as [H2|H2].
    + congruence.
    + injection H1 as -> ->. exfalso. apply Hfresh.
      apply list_elem_of_fmap. by exists (k, v2).
    + injection H2 as -> ->. exfalso. apply Hfresh.
      apply list_elem_of_fmap. by exists (k, v1).
    + by apply IH.
Qed.

(** A turn of the loop on a history that normalizes to nothing leaves the
    container alone, and on a history whose table fits the slot it writes
    that table. *)
Lemma populate_step_skips (self : PrimitiveDataContainerOperations) (dims : Dimensions)
    (dc : DataArray) (coin : string * string) (h : RawHistory) (st : State) :
  get_compatible_df h st = (Raise EmptyDataFrameException, st) →
  populate_step self dims dc (coin, h) st = (Ok dc, st).
Proof.
  intros Hskip. destruct coin as [b r]. unfold populate_step, attempt, bind.
  by rewrite Hskip.
Qed.

Lemma populate_step_writes (self : PrimitiveDataContainerOperations) (dims : Dimensions)
    (dc : DataArray) (coin : string * string) (h : RawHistory) (st : State)
    (history_df : DataFrame) (necessary_columns : list string) (written : list (list cell)) :
  get_compatible_df h st = (Ok history_df, st) →
  lists st !! ohlcv_fields dims = Some necessary_columns →
  coin.1 ∈ coord_base_assets dc → coin.2 ∈ coord_reference_assets dc →
  broadcast (transpose_values (normalized_table self necessary_columns history_df))
    (length (coord_ohlcv_fields dc)) (length (coord_index_number dc)) = Some written →
  populate_step self dims dc (coin, h) st = (Ok (with_slot dc coin written), st).
Proof.
  intros Hdf Hlist Hb Hr Hw. destruct coin as [b r].
  etransitivity;
    [exact (populate_step_inserts self dims dc b r h st st history_df _ Hdf Hlist)|].
  f_equal. apply insert_coin_history_Ok. split.
  - apply loc_setitem_Ok. repeat split; try done. by exists written.
  - apply fits_with_columns, append_weight_frame_nonempty.
Qed.

(** When every history of the dictionary either normalizes to nothing or to
    a table that fits the slots, the loop completes: it calls nobody, keeps
    the axes, leaves the slots of the former pairs and of the pairs outside
    the dictionary as they were and writes the tables of the latter. *)
Lemma populate_loop_completes (self : PrimitiveDataContainerOperations) (dims : Dimensions)
    (necessary_columns : list string) (st : State) (dc0 : DataArray)
    (items : list ((string * string) * RawHistory)) :
  lists st !! ohlcv_fields dims = Some necessary_columns →
  NoDup items.*1 →
  (∀ coin h, (coin, h) ∈ items →
     get_compatible_df h st = (Raise EmptyDataFrameException, st)
     ∨ ∃ history_df written,
         get_compatible_df h st = (Ok history_df, st)
         ∧ coin.1 ∈ coord_base_assets dc0 ∧ coin.2 ∈ coord_reference_assets dc0
         ∧ broadcast (transpose_values (normalized_table self necessary_columns history_df))
             (length (coord_ohlcv_fields dc0)) (length (coord_index_number dc0))
           = Some written) →
  ∀ dc, same_axes dc dc0 →
  ∃ dc',
    populate_loop self dims dc items st = (Ok dc', st)
    ∧ same_axes dc' dc0
    ∧ (∀ pair, pair ∉ items.*1 → slots dc' !! pair = slots dc !! pair)
    ∧ ∀ coin h, (coin, h) ∈ items →
        (get_compatible_df h st = (Raise EmptyDataFrameException, st) →
         slots dc' !! coin = slots dc !! coin)
        ∧ (∀ history_df, get_compatible_df h st = (Ok history_df, st) →
           is_Some (slots dc' !! coin)
           ∧ slots dc' !! coin
             = broadcast (transpose_values (normalized_table self necessary_columns history_df))
                 (length (coord_ohlcv_fields dc0)) (length (coord_index_number dc0))).
Proof.
  intros Hlist. induction items as [|[coin h] rest IH]; intros Hkeys Hitems dc Haxes.
  - exists dc. split; [done|]. split; [done|]. split; [done|].
    intros coin h Hin. by apply elem_of_nil in Hin.
  - rewrite fmap_cons in Hkeys. apply NoDup_cons in Hkeys as [Hcoin Hkeys]. simpl in Hcoin.
    assert (∀ c h', (c, h') ∈ rest → c ≠ coin) as Hother.
    { intros c h' Hin ->. apply Hcoin. apply list_elem_of_fmap. by exists (coin, h'). }
    specialize (IH Hkeys (fun c h' Hin => Hitems c h' (list_elem_of_further _ _ _ Hin))).
    destruct Haxes as (Hab & Har & Haf & Hai).
    destruct (Hitems coin h (list_elem_of_here _ _)) as [Hskip|(df & written & Hdf & Hb & Hr & Hw)].
    + destruct (IH dc) as (dc' & Hloop & Haxes' & Hout & Hin); [done|].
      exists dc'. split; [|split; [done|split]].
      * cbn [populate_loop]. unfold bind.
        by rewrite (populate_step_skips self dims dc coin h st Hskip).
      * intros pair Hpair. rewrite fmap_cons, not_elem_of_cons in Hpair.
        apply Hout. tauto.
      * intros c h' Hc. apply elem_of_cons in Hc as [[= -> ->]|Hc]; [|by apply Hin].
        split; [intros _; by apply Hout|]. intros df Hdf. congruence.
    + destruct (IH (with_slot dc coin written)) as (dc' & Hloop & Haxes' & Hout & Hin); [done|].
      exists dc'. split; [|split; [done|split]].
      * cbn [populate_loop]. unfold bind.
        rewrite (populate_step_writes self dims dc coin h st df necessary_columns written);
          [done|done|done|by rewrite Hab|by rewrite Har|by rewrite Haf, Hai].
      * intros pair Hpair. rewrite fmap_cons, not_elem_of_cons in Hpair.
        destruct Hpair as [Hne Hpair]. rewrite (Hout pair Hpair). simpl.
        by apply lookup_insert_ne.
      * intros c h' Hc. apply elem_of_cons in Hc as [[= -> ->]|Hc].
        -- split; [intros Hskip; congruence|]. intros df' Hdf'.
           assert (df' = df) as -> by congruence.
           rewrite (Hout coin Hcoin), Hw. simpl. rewrite lookup_insert_eq. by split.
        -- destruct (Hin c h' Hc) as [Hs Hf]. split; [|done].
           intros Hskip. rewrite (Hs Hskip). simpl.
           apply lookup_insert_ne. intros Heq. by apply (Hother c h' Hc).
Qed.

(** C3: a raw history without records makes [get_compatible_df] raise the
    empty-history exception; the loop of [populate_container] then runs
    exactly as it does on the other pairs alone, so it is not aborted by that
    pair, and when it completes the slot of that pair is as it was before
    (null in a new container).  And the loop does complete, without a call,
    when every history either normalizes to nothing or normalizes, with the
    example in the cache, to a table that fits the slot of a pair of the
    coordinates: the container then has the same axes, the pairs of the
    former kind keep their slots and those of the latter kind hold their
    tables. *)
Theorem empty_history_pair_is_skipped
    (self : PrimitiveDataContainerOperations) (dims : Dimensions) (dc : DataArray)
    (historical_data : list ((string * string) * RawHistory))
    (pair : string * string) (st : State) :
  NoDup historical_data.*1 →
  (pair, []) ∈ historical_data →
  get_compatible_df [] st = (Raise EmptyDataFrameException, st)
  ∧ populate_loop self dims dc historical_data st
    = populate_loop self dims dc (filter (fun item => item.1 ≠ pair) historical_data) st
  ∧ (∀ dc' st',
       populate_loop self dims dc historical_data st = (Ok dc', st') →
       slots dc' !! pair = slots dc !! pair)
  ∧ ∀ necessary_columns,
      lists st !! ohlcv_fields dims = Some necessary_columns →
      (∀ coin h, (coin, h) ∈ historical_data →
         get_compatible_df h st = (Raise EmptyDataFrameException, st)
         ∨ ∃ history_df written,
             get_compatible_df h st = (Ok history_df, st)
             ∧ coin.1 ∈ coord_base_assets dc ∧ coin.2 ∈ coord_reference_assets dc
             ∧ broadcast
                 (transpose_values (normalized_table self necessary_columns history_df))
                 (length (coord_ohlcv_fields dc)) (length (coord_index_number dc))
               = Some written) →
      ∃ dc',
        populate_loop self dims dc historical_data st = (Ok dc', st)
        ∧ same_axes dc' dc
        ∧ slots dc' !! pair = slots dc !! pair
        ∧ ∀ coin h, (coin, h) ∈ historical_data →
            (get_compatible_df h st = (Raise EmptyDataFrameException, st) →
             slots dc' !! coin = slots dc !! coin)
            ∧ (∀ history_df, get_compatible_df h st = (Ok history_df, st) →
               is_Some (slots dc' !! coin)
               ∧ slots dc' !! coin
                 = broadcast
                     (transpose_values (normalized_table self necessary_columns history_df))
                     (length (coord_ohlcv_fields dc)) (length (coord_index_number dc))).
Proof.
  intros Hkeys Hin.
  assert (populate_loop self dims dc historical_data st
          = populate_loop self dims dc
              (filter (fun item => item.1 ≠ pair) historical_data) st) as Hskip.
  { apply populate_loop_skips. intros h Hh. by apply (unique_key _ _ _ _ Hkeys Hh Hin). }
  split; [apply get_compatible_df_empty|]. split; [done|]. split.
  - intros dc' st'. rewrite Hskip. apply populate_loop_other_slots.
    apply Forall_forall. intros item Hitem. by apply list_elem_of_filter in Hitem as [? _].
  - intros necessary_columns Hlist Hitems.
    destruct (populate_loop_completes self dims necessary_columns st dc historical_data
                Hlist Hkeys Hitems dc) as (dc' & Hloop & Haxes & _ & Hslots); [done|].
    exists dc'. split; [done|]. split; [done|]. split; [|done].
    apply (Hslots pair [] Hin). apply get_compatible_df_empty.
Qed.

Lemma empty_history_pair_is_skipped_witness :
  get_compatible_df [] resolved_state = (Raise EmptyDataFrameException, resolved_state)
  ∧ populate_loop sample_operations sample_dimensions sample_container
      [(("LTC", "BTC"), []); (("ETH", "BTC"), short_history)] resolved_state
    = populate_loop sample_operations sample_dimensions sample_container
        (filter (fun item => item.1 ≠ ("LTC", "BTC"))
           [(("LTC", "BTC"), []); (("ETH", "BTC"), short_history)]) resolved_state
  ∧ (∀ dc' st',
       populate_loop sample_operations sample_dimensions sample_container
         [(("LTC", "BTC"), []); (("ETH", "BTC"), short_history)] resolved_state = (Ok dc', st') →
       slots dc' !! ("LTC", "BTC") = slots sample_container !! ("LTC", "BTC"))
  ∧ ∃ dc',
      populate_loop sample_operations sample_dimensions sample_container
        [(("LTC", "BTC"), []); (("ETH", "BTC"), short_history)] resolved_state
      = (Ok dc', resolved_state)
      ∧ same_axes dc' sample_container
      ∧ slots dc' !! ("LTC", "BTC") = slots sample_container !! ("LTC", "BTC")
      ∧ is_Some (slots dc' !! ("ETH", "BTC"))
      ∧ slots dc' !! ("ETH", "BTC")
        = Some [[Num 7; Null; Null]; [Num 8; Null; Null]; [Text "1h"; Text "1h"; Text "1h"]].
Proof.
  pose proof (empty_history_pair_is_skipped sample_operations sample_dimensions
                sample_container
                [(("LTC", "BTC"), []); (("ETH", "BTC"), short_history)] ("LTC", "BTC")
                resolved_state) as Hclaim.
  destruct Hclaim as (Hraise & Hsame & Hslot & Hcompletes).
  - refine (bool_decide_unpack _ _). vm_compute. exact I.
  - refine (bool_decide_unpack _ _). vm_compute. exact I.
  - split; [exact Hraise|]. split; [exact Hsame|]. split; [exact Hslot|].
    destruct (Hcompletes ["open"; "close"; "weight"] eq_refl)
      as (dc' & Hloop & Haxes & Hpair & Hitems).
    + intros coin h Hin.
      apply elem_of_cons in Hin as [[= -> ->]|Hin]; [by left|].
      apply list_elem_of_singleton in Hin as [= -> ->]. right.
      do 2 eexists. split; [reflexivity|].
      split; [refine (bool_decide_unpack _ _); vm_compute; exact I|].
      split; [refine (bool_decide_unpack _ _); vm_compute; exact I|].
      reflexivity.
    + exists dc'. split; [exact Hloop|]. split; [exact Haxes|]. split; [exact Hpair|].
      destruct (proj2 (Hitems ("ETH", "BTC") short_history
                         ltac:(refine (bool_decide_unpack _ _); vm_compute; exact I))
                  _ eq_refl) as [Hsome Hvalue].
      split; [exact Hsome|]. rewrite Hvalue. reflexivity.
Defined.

(** On the sample data the build completes: the pair with a history is
    written, padded to the depth of the example, and the pair without one
    keeps its null slot. *)
Example populate_loop_with_an_empty_history :
  ∃ dc' st',
    populate_loop sample_operations sample_dimensions sample_container
      [(("LTC", "BTC"), []); (("ETH", "BTC"), short_history)] resolved_state = (Ok dc', st')
    ∧ slots dc' !! ("LTC", "BTC") = None
    ∧ slots dc' !! ("ETH", "BTC")
      = Some [[Num 7; Null; Null]; [Num 8; Null; Null]; [Text "1h"; Text "1h"; Text "1h"]].
Proof. do 2 eexists. split; [reflexivity|]. split; vm_compute; reflexivity. Qed.

(** ** Insertion into the container *)

(** Two turns on different pairs can be exchanged. *)
Lemma effect_swap (k1 k2 : string * string) o1 o2 (dc dc1 dc2 : DataArray) :
  k1 ≠ k2 →
  effect k1 o1 dc = Ok dc1 → effect k2 o2 dc1 = Ok dc2 →
  ∃ dc1', effect k2 o2 dc = Ok dc1' ∧ effect k1 o1 dc1' = Ok dc2.
Proof.
  intros Hne. destruct o1 as [[v1|]|e1], o2 as [[v2|]|e2]; simpl; try done.
  - intros H1 H2.
    apply insert_coin_history_Ok in H1 as [H1 Hfits1].
    apply loc_setitem_Ok in H1 as (Hb1 & Hr1 & w1 & Hw1 & ->).
    apply insert_coin_history_Ok in H2 as [H2 Hfits2].
    apply loc_setitem_Ok in H2 as (Hb2 & Hr2 & w2 & Hw2 & ->). simpl in *.
    exists (with_slot dc k2 w2). split.
    + apply insert_coin_history_Ok. split; [|done].
      apply loc_setitem_Ok. destruct k2. eauto 10.
    + apply insert_coin_history_Ok. split; [|done].
      apply loc_setitem_Ok. simpl. repeat split; try done.
      exists w1. split; [done|]. destruct k1, k2. unfold with_slot. simpl.
      f_equal. by apply insert_insert_ne.
  - intros H1 [= <-]. eauto.
  - intros [= <-] H2. eauto.
  - intros [= <-] [= <-]. eauto.
Qed.

(** Any loop whose turns act through [effect] on pairwise different pairs
    reaches the same container in every order. *)
Section order.
Context {I : Type} (key : I → string * string) (step : DataArray → I → result DataArray).
Hypothesis step_effect : ∀ i, ∃ outcome, ∀ dc, step dc i = effect (key i) outcome dc.

Lemma run_all_perm (l l' : list I) :
  l ≡ₚ l' → NoDup (key <$> l) →
  ∀ dc c, run_all step dc l = Ok c → run_all step dc l' = Ok c.
Proof.
  induction 1 as [|i l l' Hperm IH|i j l|l l' l'' Hperm1 IH1 Hperm2 IH2];
    intros Hkeys dc c.
  - done.
  - simpl. apply NoDup_cons in Hkeys as [_ Hkeys].
    destruct (step dc i); [|done]. by apply IH.
  - simpl. rewrite !fmap_cons in Hkeys.
    apply NoDup_cons in Hkeys as [Hij _].
    assert (key j ≠ key i) as Hne.
    { intros Heq. apply Hij. rewrite Heq. by left. }
    destruct (step_effect i) as [oi Hi], (step_effect j) as [oj Hj].
    rewrite (Hj dc).
    destruct (effect (key j) oj dc) as [dc1|] eqn:H1; [|done].
    rewrite (Hi dc1).
    destruct (effect (key i) oi dc1) as [dc2|] eqn:H2; [|done].
    destruct (effect_swap _ _ _ _ _ _ _ Hne H1 H2) as (dc1' & H1' & H2').
    by rewrite (Hi dc), H1', (Hj dc1'), H2'.
  - intros Hrun. apply IH2.
    + by rewrite <- Hperm1.
    + by apply IH1.
Qed.
End order.

Lemma insert_all_run (dc : DataArray) (tables : list ((string * string) * DataFrame)) :
  insert_all dc tables
  = run_all (fun dc table => _insert_coin_history_in_container dc table.1.1 table.1.2 table.2)
            dc tables.
Proof.
  revert dc. induction tables as [|[pair df] rest IH]; intros dc; simpl; [done|].
  destruct (_insert_coin_history_in_container _ _ _ _); [apply IH|done].
Qed.

(** With a non-empty example in the cache, normalization calls nobody. *)
Lemma get_compatible_df_cached (st : State) (k : Kline) (example h : RawHistory) :
  example_raw_history (obtainer st) = Some (k :: example) →
  ∃ outcome, get_compatible_df h st = (outcome, st).
Proof.
  intros Hex. unfold get_compatible_df, bind, lift.
  destruct (pd_DataFrame h) as [history_df|e]; [|by eexists].
  destruct (empty history_df); [by eexists|].
  unfold pad_extra_rows_if_necessary, bind.
  rewrite (initialize_example_cached st k example Hex). run. rewrite Hex.
  destruct (0 <? _); [|by eexists].
  destruct (add_extra_rows_to_bottom _ _); by eexists.
Qed.

(** Then a turn of the loop acts on the container in a way that its pair and
    history fix. *)
Lemma populate_step_cached (self : PrimitiveDataContainerOperations) (dims : Dimensions)
    (st : State) (k : Kline) (example : RawHistory) (item : (string * string) * RawHistory) :
  example_raw_history (obtainer st) = Some (k :: example) →
  ∃ outcome, ∀ dc, populate_step self dims dc item st = (effect item.1 outcome dc, st).
Proof.
  intros Hex. destruct item as [[b r] h]. unfold populate_step, bind, attempt.
  destruct (get_compatible_df_cached st k example h Hex) as [[df|e] ->].
  - unfold read_list. destruct (lists st !! ohlcv_fields dims) as [necessary|].
    + eexists (Ok (Some _)). intros dc. reflexivity.
    + by exists (Raise TypeError).
  - destruct (decide (e = EmptyDataFrameException)) as [->|Hne].
    + by exists (Ok None).
    + exists (Raise e). intros dc. by destruct e.
Qed.

Lemma populate_loop_cached (self : PrimitiveDataContainerOperations) (dims : Dimensions)
    (st : State) (k : Kline) (example : RawHistory)
    (items : list ((string * string) * RawHistory)) :
  example_raw_history (obtainer st) = Some (k :: example) →
  ∀ dc, populate_loop self dims dc items st
        = (run_all (fun dc item => (populate_step self dims dc item st).1) dc items, st).
Proof.
  intros Hex. induction items as [|item rest IH]; intros dc; simpl; [done|].
  unfold bind. destruct (populate_step_cached self dims st k example item Hex) as [o Ho].
  rewrite (Ho dc). simpl. destruct (effect item.1 o dc); [apply IH|done].
Qed.

Lemma length_transpose_values (df : DataFrame) :
  length (transpose_values df) = length (frame df).
Proof.
  unfold transpose_values. cbv zeta.
  destruct (common_float _); by rewrite ?length_map, ?length_fmap.
Qed.

Lemma transpose_values_lengths (df : DataFrame) (n : nat) :
  Forall (fun col => length col.2 = n) (frame df) →
  Forall (fun row => length row = n) (transpose_values df).
Proof.
  intros Hcols. unfold transpose_values. cbv zeta.
  assert (Forall (fun row => length row = n) (frame df).*2) as Hrows by (by apply Forall_fmap).
  destruct (common_float _); [|done].
  apply Forall_forall. intros row Hrow. apply list_elem_of_In, in_map_iff in Hrow as (col & <- & Hcol).
  rewrite length_map. apply (proj1 (Forall_forall _ _) Hrows). by apply list_elem_of_In.
Qed.

Lemma broadcast_to_same {A} (n : nat) (l : list A) : length l = n → broadcast_to n l = Some l.
Proof. intros Hlen. unfold broadcast_to. by rewrite bool_decide_eq_true_2. Qed.

(** A value that has the shape of the slot is written as it is. *)
Lemma broadcast_same_shape (value : list (list cell)) (n_fields n_index : nat) :
  length value = n_fields → Forall (fun row => length row = n_index) value →
  broadcast value n_fields n_index = Some value.
Proof.
  intros Hfields Hrows. unfold broadcast.
  assert (mapM (broadcast_to n_index) value = Some value) as ->.
  { apply mapM_Some. clear Hfields.
    induction Hrows; constructor; [by apply broadcast_to_same|done]. }
  simpl. by apply broadcast_to_same.
Qed.

(** C8: an insertion writes the table of the pair, given the shape of the
    slot, at the coordinate of the pair, whatever was there, and leaves every
    other slot as it was; hence the tables of distinct pairs can be inserted
    in any order with the same final container, be it by the insertions
    alone or by the loop of [populate_container] (run with the example
    history in the cache). *)
Theorem insertion_order_is_irrelevant :
  (∀ dc b r history_df c,
     _insert_coin_history_in_container dc b r history_df = Ok c →
     ∃ written,
       broadcast (transpose_values history_df)
         (length (coord_ohlcv_fields dc)) (length (coord_index_number dc)) = Some written
       ∧ slots c !! (b, r) = Some written
       ∧ (∀ pair, pair ≠ (b, r) → slots c !! pair = slots dc !! pair)
       ∧ (length (frame history_df) = length (coord_ohlcv_fields dc) →
          Forall (fun col => length col.2 = length (coord_index_number dc)) (frame history_df) →
          written = transpose_values history_df))
  ∧ (∀ dc tables tables' c,
       NoDup tables.*1 → tables ≡ₚ tables' →
       insert_all dc tables = Ok c → insert_all dc tables' = Ok c)
  ∧ (∀ self dims st k example dc items items' c st',
       example_raw_history (obtainer st) = Some (k :: example) →
       NoDup items.*1 → items ≡ₚ items' →
       populate_loop self dims dc items st = (Ok c, st') →
       populate_loop self dims dc items' st = (Ok c, st')).
Proof.
  split; [|split].
  - intros dc b r df c Hins. apply insert_coin_history_Ok in Hins as [Hins _].
    apply loc_setitem_Ok in Hins as (_ & _ & written & Hw & ->).
    exists written. split; [done|]. simpl. split; [apply lookup_insert_eq|]. split.
    + intros pair Hne. by apply lookup_insert_ne.
    + intros Hfields Hrows.
      rewrite broadcast_same_shape in Hw.
      * by injection Hw.
      * by rewrite length_transpose_values.
      * by apply transpose_values_lengths.
  - intros dc tables tables' c Hkeys Hperm. rewrite !insert_all_run.
    apply (run_all_perm (fun table => table.1)); try done.
    intros [[b r] df]. by exists (Ok (Some df)).
  - intros self dims st k example dc items items' c st' Hex Hkeys Hperm.
    rewrite !(populate_loop_cached self dims st k example _ Hex).
    intros [= Hrun <-]. f_equal.
    revert Hrun. apply (run_all_perm (fun item => item.1)); try done.
    intros item. destruct (populate_step_cached self dims st k example item Hex) as [o Ho].
    exists o. intros dc0. by rewrite Ho.
Qed.

Lemma insertion_order_is_irrelevant_witness :
  (∃ written,
     broadcast (transpose_values (sample_table sample_history)) 3 3 = Some written
     ∧ slots (with_slot sample_container ("ETH", "BTC")
                (transpose_values (sample_table sample_history))) !! ("ETH", "BTC")
       = Some written
     ∧ (∀ pair, pair ≠ ("ETH", "BTC") →
          slots (with_slot sample_container ("ETH", "BTC")
                   (transpose_values (sample_table sample_history))) !! pair
          = slots sample_container !! pair)
     ∧ (length (frame (sample_table sample_history)) = 3%nat →
        Forall (fun col => length col.2 = 3%nat) (frame (sample_table sample_history)) →
        written = transpose_values (sample_table sample_history)))
  ∧ insert_all sample_container
      [(("LTC", "BTC"), sample_table second_history);
       (("ETH", "BTC"), sample_table sample_history)]
    = Ok (with_slot
            (with_slot sample_container ("ETH", "BTC")
               (transpose_values (sample_table sample_history)))
            ("LTC", "BTC") (transpose_values (sample_table second_history)))
  ∧ populate_loop sample_operations sample_dimensions sample_container
      [(("LTC", "BTC"), short_history); (("ETH", "BTC"), sample_history)] resolved_state
    = (Ok (with_slot
             (with_slot sample_container ("ETH", "BTC")
                (transpose_values (sample_table sample_history)))
             ("LTC", "BTC")
             [[Num 7; Null; Null]; [Num 8; Null; Null]; [Text "1h"; Text "1h"; Text "1h"]]),
       resolved_state).
Proof.
  split; [|split].
  - apply (proj1 insertion_order_is_irrelevant sample_container "ETH" "BTC"
             (sample_table sample_history)).
    reflexivity.
  - apply (proj1 (proj2 insertion_order_is_irrelevant) sample_container
             [(("ETH", "BTC"), sample_table sample_history);
              (("LTC", "BTC"), sample_table second_history)]).
    + refine (bool_decide_unpack _ _). vm_compute. exact I.
    + apply Permutation_swap.
    + reflexivity.
  - apply (proj2 (proj2 insertion_order_is_irrelevant) sample_operations sample_dimensions
             resolved_state (sample_kline 1 2) [sample_kline 3 4; sample_kline 5 6]
             sample_container
             [(("ETH", "BTC"), sample_history); (("LTC", "BTC"), short_history)]).
    + reflexivity.
    + refine (bool_decide_unpack _ _). vm_compute. exact I.
    + apply Permutation_swap.
    + reflexivity.
Defined.

(** ** The field list of the caller *)

(** A successful resolution leaves the caller's list one entry longer, and
    the dimensions hold that very list. *)
Lemma get_dimension_coordinates_appends
    (fields_at : nat) (bases refs fields : list string) (st st' : State) (dims : Dimensions) :
  lists st !! fields_at = Some fields →
  get_dimension_coordinates_from_fields_and_assets fields_at bases refs st = (Ok dims, st') →
  lists st' !! fields_at = Some (fields ++ ["weight"]) ∧ ohlcv_fields dims = fields_at.
Proof.
  intros Hfields. unfold get_dimension_coordinates_from_fields_and_assets, bind.
  destruct (get_depth_of_indices st) as [[indices|e] st1] eqn:Hdepth; [|done].
  assert (lists st1 = lists st) as Hsame.
  { revert Hdepth. unfold get_depth_of_indices, bind.
    destruct (initialize_example st) as [[h|e] st2] eqn:Hinit; [|done].
    run. intros [= _ <-]. revert Hinit.
    destruct (truthy (example_raw_history (obtainer st))) eqn:Hex.
    - destruct (example_raw_history (obtainer st)) as [[|k t]|] eqn:Hc; try done.
      rewrite (initialize_example_cached st k t Hc). by intros [= _ <-].
    - rewrite (initialize_example_fetches st Hex).
      destruct (history_answer _ _ _); [|done]. by intros [= _ <-]. }
  unfold list_append. rewrite Hsame, Hfields. run. intros [= <- <-]. simpl.
  split; [apply lookup_insert_eq|done].
Qed.

(** C5, on the list [["open"; "close"]]: the first resolution appends the
    weight entry to the caller's own list, and a second resolution with the
    same list appends another one; both dimensions hold that list. *)
Theorem resolver_appends_to_the_callers_list :
  ∃ dims1 st1 dims2 st2,
    lists (fresh_state always_sample) !! 0%nat = Some ["open"; "close"]
    ∧ get_dimension_coordinates_from_fields_and_assets 0 ["ETH"] ["BTC"]
        (fresh_state always_sample) = (Ok dims1, st1)
    ∧ lists st1 !! 0%nat = Some ["open"; "close"; "weight"]
    ∧ get_dimension_coordinates_from_fields_and_assets 0 ["ETH"] ["BTC"] st1
      = (Ok dims2, st2)
    ∧ lists st2 !! 0%nat = Some ["open"; "close"; "weight"; "weight"]
    ∧ ohlcv_fields dims1 = 0%nat ∧ ohlcv_fields dims2 = 0%nat.
Proof.
  do 4 eexists. split; [by vm_compute|]. split; [reflexivity|].
  split; [by vm_compute|]. split; [reflexivity|]. split; [by vm_compute|]. done.
Qed.

(** ** The whole build *)

(** The scenario of one exchange with the tickers ETHBTC and LTCBTC, an
    example of three klines and the fields open and close: every pair gets
    its three fields over three index numbers, the weight being the
    interval. *)
Example build_sample_container :
  ∃ dc st',
    get_populated_primitive_container sample_operations (fresh_state always_sample)
    = (Ok dc, st')
    ∧ coord_ohlcv_fields dc = ["open"; "close"; "weight"]
    ∧ coord_index_number dc = [0; 1; 2]
    ∧ slots dc !! ("ETH", "BTC")
      = Some [[Num 1; Num 3; Num 5]; [Num 2; Num 4; Num 6]; [Text "1h"; Text "1h"; Text "1h"]]
    ∧ requests st'
      = [HistoryRequest "ETHBTC"; TickersRequest;
         HistoryRequest "ETHBTC"; HistoryRequest "LTCBTC"].
Proof.
  do 2 eexists. split; [reflexivity|]. repeat split; by vm_compute.
Qed.

(** A second build with the same operations object finds two weight entries
    in its field list and fails to insert the tables. *)
Example second_build_fails :
  ((let! _ := get_populated_primitive_container sample_operations in
    get_populated_primitive_container sample_operations)
     (fresh_state always_sample)).1
  = Raise ValueError.
Proof. by vm_compute. Qed.

(** * Further properties of the module *)

(** ** The selected pairs *)

Lemma tickers_of_one_base (base : string) (reference_assets : list string)
    (pool : TickerPool) :
  flat_map (fun reference_asset =>
      if existsb (fun raw_ticker => String.eqb (base +:+ reference_asset) (symbol raw_ticker))
                 pool
      then [(base, reference_asset)]
      else [])
    reference_assets
  = filter (fun p => Is_true (existsb (fun raw_ticker =>
                                String.eqb (p.1 +:+ p.2) (symbol raw_ticker)) pool))
           (map (pair base) reference_assets).
Proof.
  induction reference_assets as [|r rest IH]; [done|].
  cbn [flat_map map]. rewrite filter_cons, IH. cbn [fst snd].
  destruct (existsb _ pool) eqn:Hany.
  - rewrite decide_True; [done|exact I].
  - rewrite decide_False; [done|]. by intros [].
Qed.

Lemma NoDup_list_prod_pairs {A B} (l : list A) (k : list B) :
  NoDup l → NoDup k → NoDup (list_prod l k).
Proof.
  intros Hl Hk. induction Hl as [|a l Ha Hl IH]; simpl; [constructor|].
  apply NoDup_app. split; [|split; [|done]].
  - by apply (NoDup_fmap_2 (pair a)).
  - intros [a' b] Hin Hin'. apply list_elem_of_fmap in Hin as (b' & [= -> ->] & _).
    apply list_elem_of_In, in_prod_iff in Hin' as [Hin' _].
    by apply list_elem_of_In in Hin'.
Qed.

Lemma tickers_to_capture_as_filter
    (base_assets reference_assets : list string) (raw_ticker_pool : TickerPool) :
  tickers_to_capture base_assets reference_assets raw_ticker_pool
  = filter (fun p => Is_true (existsb (fun raw_ticker =>
                                String.eqb (p.1 +:+ p.2) (symbol raw_ticker))
                              raw_ticker_pool))
           (list_prod base_assets reference_assets).
Proof.
  unfold tickers_to_capture.
  induction base_assets as [|b rest IH]; [done|].
  cbn [flat_map list_prod]. by rewrite filter_app, IH, tickers_of_one_base.
Qed.

(** X1: the selected pairs are the cartesian product of the two asset lists,
    base by base and reference by reference, restricted to the pairs whose
    concatenation is listed; with asset lists free of repetitions no pair is
    selected twice. *)
Theorem tickers_to_capture_in_product_order
    (base_assets reference_assets : list string) (raw_ticker_pool : TickerPool) :
  tickers_to_capture base_assets reference_assets raw_ticker_pool
  = filter (fun p => Is_true (existsb (fun raw_ticker =>
                                String.eqb (p.1 +:+ p.2) (symbol raw_ticker))
                              raw_ticker_pool))
           (list_prod base_assets reference_assets)
  ∧ (NoDup base_assets → NoDup reference_assets →
     NoDup (tickers_to_capture base_assets reference_assets raw_ticker_pool)).
Proof.
  split; [apply tickers_to_capture_as_filter|]. intros Hb Hr.
  rewrite tickers_to_capture_as_filter.
  apply NoDup_filter. by apply NoDup_list_prod_pairs.
Qed.

Lemma tickers_to_capture_in_product_order_witness :
  NoDup (tickers_to_capture ["ETH"; "LTC"; "XRP"] ["BTC"; "USDT"] sample_pool).
Proof.
  apply (proj2 (tickers_to_capture_in_product_order
                  ["ETH"; "LTC"; "XRP"] ["BTC"; "USDT"] sample_pool)).
  - refine (bool_decide_unpack _ _). vm_compute. exact I.
  - refine (bool_decide_unpack _ _). vm_compute. exact I.
Defined.

(** ** The tasks of the bulk fetch *)

Lemma dict_set_elem {V} (d : list ((string * string) * V)) (k p : string * string) (v w : V) :
  (p, w) ∈ dict_set d k v → (p = k ∧ w = v) ∨ (p, w) ∈ d.
Proof.
  induction d as [|[k' v'] rest IH]; cbn [dict_set].
  - intros Hin. apply list_elem_of_singleton in Hin as [= -> ->]. by left.
  - destruct (decide (k' = k)) as [->|Hne]; intros Hin;
      apply elem_of_cons in Hin as [Hin|Hin].
    + injection Hin as -> ->. by left.
    + right. by right.
    + right. rewrite Hin. by left.
    + destruct (IH Hin) as [?|?]; [by left|]. right. by right.
Qed.

Lemma tasks_fold_elem (tickers : list (string * string))
    (d : list ((string * string) * M RawHistory)) (p : string * string) (t : M RawHistory) :
  (p, t) ∈ foldl (fun tasks pair =>
                    dict_set tasks pair (_get_raw_history_for_ticker (pair.1 +:+ pair.2)))
                 d tickers →
  t = _get_raw_history_for_ticker (p.1 +:+ p.2) ∨ (p, t) ∈ d.
Proof.
  revert d. induction tickers as [|k rest IH]; intros d; simpl; [by right|].
  intros Hin. destruct (IH _ Hin) as [?|Hd]; [by left|].
  apply dict_set_elem in Hd as [[-> ->]|?]; [by left|by right].
Qed.

(** X2: the dictionary of tasks has exactly the pairs to capture as its keys,
    each once however often it was listed, and the task of a pair is the
    fetch of the history of its own concatenated symbol. *)
Theorem tasks_to_pursue_spec (tickers : list (string * string)) :
  _get_historical_data_relevant_coins tickers = gather_dict (tasks_to_pursue tickers)
  ∧ NoDup (tasks_to_pursue tickers).*1
  ∧ (∀ p, p ∈ (tasks_to_pursue tickers).*1 ↔ p ∈ tickers)
  ∧ (∀ p task, (p, task) ∈ tasks_to_pursue tickers →
       task = _get_raw_history_for_ticker (p.1 +:+ p.2)).
Proof.
  split; [done|]. unfold tasks_to_pursue.
  destruct (tasks_keys (fun p => _get_raw_history_for_ticker (p.1 +:+ p.2)) tickers [])
    as [Hnd Hiff]; [constructor|].
  split; [done|]. split.
  - intros p. rewrite Hiff, elem_of_nil. tauto.
  - intros p task Hin. apply tasks_fold_elem in Hin as [?|Hin]; [done|].
    by apply elem_of_nil in Hin.
Qed.

Lemma tasks_to_pursue_spec_witness :
  _get_raw_history_for_ticker "LTCBTC"
  = _get_raw_history_for_ticker (("LTC", "BTC").1 +:+ ("LTC", "BTC").2).
Proof.
  apply (proj2 (proj2 (proj2 (tasks_to_pursue_spec
                                [("ETH", "BTC"); ("LTC", "BTC"); ("ETH", "BTC")])))
           ("LTC", "BTC") (_get_raw_history_for_ticker "LTCBTC")).
  unfold tasks_to_pursue. simpl. right. left.
Defined.

(** ** More on the example history *)

(** X3: once a call has returned an example with at least one kline, every
    further call returns that example, asks the exchange nothing and leaves
    the state as it is. *)
Theorem initialize_example_reuses_non_empty_example
    (st st1 : State) (example : RawHistory) :
  initialize_example st = (Ok example, st1) →
  example ≠ [] →
  initialize_example st1 = (Ok example, st1).
Proof.
  intros Hinit Hne. apply initialize_example_stores in Hinit.
  destruct example as [|k rest]; [done|]. by apply initialize_example_cached.
Qed.

Lemma initialize_example_reuses_non_empty_example_witness :
  initialize_example
    (with_example (asked (fresh_state always_sample) (HistoryRequest "ETHBTC")) sample_history)
  = (Ok sample_history,
     with_example (asked (fresh_state always_sample) (HistoryRequest "ETHBTC")) sample_history).
Proof.
  apply (initialize_example_reuses_non_empty_example (fresh_state always_sample)).
  - reflexivity.
  - discriminate.
Defined.

(** The three ways a call of [initialize_example] can go. *)
Lemma initialize_example_outcomes (st : State) :
  (∃ k t, initialize_example st = (Ok (k :: t), st))
  ∨ (∃ e, initialize_example st = (Raise e, asked st (HistoryRequest "ETHBTC")))
  ∨ (∃ h, initialize_example st
          = (Ok h, with_example (asked st (HistoryRequest "ETHBTC")) h)).
Proof.
  destruct (truthy (example_raw_history (obtainer st))) as [h0|] eqn:Hex.
  - destruct (example_raw_history (obtainer st)) as [[|k t]|] eqn:Hc; try done.
    left. exists k, t. by apply initialize_example_cached.
  - right. rewrite (initialize_example_fetches st Hex).
    destruct (history_answer _ _ _) as [h|e]; [right; by exists h|left; by exists e].
Qed.

(** X4: a call of [initialize_example] never touches the lists of the caller
    nor the settings of the obtainer, asks the exchange at most once and then
    for ETHBTC, and when it raises the cached example is the one from before. *)
Theorem initialize_example_footprint (st : State) :
  let st' := (initialize_example st).2 in
  lists st' = lists st
  ∧ (requests st' = requests st ∨ requests st' = requests st ++ [HistoryRequest "ETHBTC"])
  ∧ market_harmonizer (obtainer st') = market_harmonizer (obtainer st)
  ∧ interval (obtainer st') = interval (obtainer st)
  ∧ start_str (obtainer st') = start_str (obtainer st)
  ∧ end_str (obtainer st') = end_str (obtainer st)
  ∧ limit (obtainer st') = limit (obtainer st)
  ∧ ticker_pool (obtainer st') = ticker_pool (obtainer st)
  ∧ (∀ e, (initialize_example st).1 = Raise e →
       example_raw_history (obtainer st') = example_raw_history (obtainer st)).
Proof.
  destruct (initialize_example_outcomes st) as [(k & t & ->)|[(e & ->)|(h & ->)]];
    simpl; repeat split; auto. done.
Qed.

Lemma initialize_example_footprint_witness :
  example_raw_history (obtainer (initialize_example (fresh_state always_down)).2)
  = example_raw_history (obtainer (fresh_state always_down)).
Proof.
  apply (proj2 (proj2 (proj2 (proj2 (proj2 (proj2 (proj2 (proj2
           (initialize_example_footprint (fresh_state always_down))))))))) (MarketError 503)).
  reflexivity.
Defined.

(** ** The pool of the obtainer *)

(** X5: the constructor leaves [ticker_pool] at [None] and
    [initialize_example] does not set it, so that on a new obtainer, also
    after the example has been initialized, [get_all_historical_data] raises
    a type error without asking the exchange. *)
Theorem get_all_historical_data_without_pool
    (exchange_factory : StockMarketFactory) (itv : string) (from to : moment) (lim : Z)
    (unpack : TickerPool → result (list (string * string)))
    (o : PrimitiveCoinHistoryObtainer) (asked_so_far : list request)
    (callers_lists : gmap nat (list string)) :
  new_PrimitiveCoinHistoryObtainer exchange_factory itv from to lim = Ok o →
  let st := {| obtainer := o; requests := asked_so_far; lists := callers_lists |} in
  get_all_historical_data unpack st = (Raise TypeError, st)
  ∧ get_all_historical_data unpack (initialize_example st).2
    = (Raise TypeError, (initialize_example st).2).
Proof.
  intros Hnew st.
  assert (ticker_pool o = None) as Hpool.
  { revert Hnew. unfold new_PrimitiveCoinHistoryObtainer.
    destruct (lim <=? 1000); [|done]. by intros [= <-]. }
  split.
  - unfold get_all_historical_data. simpl. by rewrite Hpool.
  - unfold get_all_historical_data.
    destruct (initialize_example_outcomes st) as [(k & t & ->)|[(e & ->)|(h & ->)]];
      simpl; by rewrite Hpool.
Qed.

Lemma get_all_historical_data_without_pool_witness :
  get_all_historical_data (fun _ => Ok []) (fresh_state always_sample)
  = (Raise TypeError, fresh_state always_sample)
  ∧ get_all_historical_data (fun _ => Ok []) (initialize_example (fresh_state always_sample)).2
    = (Raise TypeError, (initialize_example (fresh_state always_sample)).2).
Proof.
  apply (get_all_historical_data_without_pool (sample_factory always_sample) "1h"
           (MomentStr "1 Jan 2020") (MomentStr "1 Feb 2020") 500 (fun _ => Ok [])
           _ [] {[ 0%nat := ["open"; "close"] ]}).
  reflexivity.
Defined.

(** ** Construction of the operations *)

(** X6: the constructor of the operations builds its history obtainer
    first: a limit above 1000 makes it fail with the assertion error of the
    obtainer, and otherwise the operations keep the asset lists and the field
    list they were given and share their interval with the obtainer, which
    has no example and no pool yet. *)
Theorem new_operations_spec
    (exchange_factory : StockMarketFactory) (bases refs : list string) (fields : nat)
    (itv : string) (from to : moment) (lim : Z) :
  (1000 < lim →
     new_PrimitiveDataContainerOperations exchange_factory bases refs fields itv from to lim
     = Raise (AssertionError limit_message))
  ∧ (lim ≤ 1000 →
     ∃ self o,
       new_PrimitiveDataContainerOperations exchange_factory bases refs fields itv from to lim
       = Ok (self, o)
       ∧ ops_base_assets self = bases ∧ ops_reference_assets self = refs
       ∧ ops_ohlcv_fields self = fields
       ∧ ops_interval self = itv ∧ interval o = itv ∧ limit o = lim
       ∧ example_raw_history o = None ∧ ticker_pool o = None).
Proof.
  split; intros Hlim.
  - by apply operations_limit_checked.
  - unfold new_PrimitiveDataContainerOperations, new_PrimitiveCoinHistoryObtainer.
    destruct (Z.leb_spec lim 1000); [|lia]. do 2 eexists. done.
Qed.

Lemma new_operations_spec_witness :
  new_PrimitiveDataContainerOperations (sample_factory always_sample)
    ["ETH"] ["BTC"] 0 "1h" (MomentStr "1 Jan 2020") (MomentStr "1 Feb 2020") 5000
  = Raise (AssertionError limit_message)
  ∧ ∃ self o,
      new_PrimitiveDataContainerOperations (sample_factory always_sample)
        ["ETH"] ["BTC"] 0 "1h" (MomentStr "1 Jan 2020") (MomentStr "1 Feb 2020") 500
      = Ok (self, o)
      ∧ ops_base_assets self = ["ETH"] ∧ ops_reference_assets self = ["BTC"]
      ∧ ops_ohlcv_fields self = 0%nat
      ∧ ops_interval self = "1h" ∧ interval o = "1h" ∧ limit o = 500
      ∧ example_raw_history o = None ∧ ticker_pool o = None.
Proof.
  split.
  - apply (proj1 (new_operations_spec (sample_factory always_sample) ["ETH"] ["BTC"] 0 "1h"
                    (MomentStr "1 Jan 2020") (MomentStr "1 Feb 2020") 5000)). lia.
  - apply (proj2 (new_operations_spec (sample_factory always_sample) ["ETH"] ["BTC"] 0 "1h"
                    (MomentStr "1 Jan 2020") (MomentStr "1 Feb 2020") 500)). lia.
Defined.

(** ** Dropping columns and setting the weight *)

Lemma filter_twice {A} (P : A → Prop) `{∀ x, Decision (P x)} (l : list A) :
  filter P (filter P l) = filter P l.
Proof.
  induction l as [|x l IH]; [done|]. rewrite filter_cons.
  destruct (decide (P x)) as [Hx|Hx]; [|done].
  by rewrite filter_cons, decide_True, IH.
Qed.

(** X7: dropping the unnecessary columns keeps the index, keeps exactly the
    columns whose names are necessary, with their values and in the order
    they had, and dropping again changes nothing. *)
Theorem drop_unnecessary_columns_keeps_the_rest
    (df : DataFrame) (necessary_columns : list string) :
  let kept := drop_unnecessary_columns_from_df df necessary_columns in
  index kept = index df
  ∧ frame kept `sublist_of` frame df
  ∧ (∀ c, c ∈ frame kept ↔ c ∈ frame df ∧ c.1 ∈ necessary_columns)
  ∧ drop_unnecessary_columns_from_df kept necessary_columns = kept.
Proof.
  intros kept. pose proof (drop_unnecessary_frame df necessary_columns) as Hframe.
  fold kept in Hframe. split; [done|]. split; [|split].
  - rewrite Hframe. apply sublist_filter.
  - intros c. rewrite Hframe, list_elem_of_filter. tauto.
  - destruct (drop_unnecessary_columns_from_df kept necessary_columns) as [idx fr] eqn:Hagain.
    assert (fr = frame kept) as ->.
    { change fr with (frame {| index := idx; frame := fr |}). rewrite <- Hagain.
      rewrite drop_unnecessary_frame, Hframe. apply filter_twice. }
    assert (idx = index kept) as ->.
    { change idx with (index {| index := idx; frame := frame kept |}). by rewrite <- Hagain. }
    by destruct kept.
Qed.

(** X8: setting the weight column keeps the index and every column of
    another name where it stands, makes sure a column of that name exists,
    filled with the value once per row, adds at most that one column, and
    setting it again changes nothing. *)
Theorem append_weight_column_to_df_spec (df : DataFrame) (name : string) (value : cell) :
  let out := append_weight_column_to_df df name value in
  index out = index df
  ∧ name ∈ columns out
  ∧ filter (fun c => c.1 ≠ name) (frame out) = filter (fun c => c.1 ≠ name) (frame df)
  ∧ (∀ values, (name, values) ∈ frame out → values = replicate (length (index df)) value)
  ∧ length (frame out)
    = (if bool_decide (name ∈ columns df) then length (frame df) else S (length (frame df)))
  ∧ append_weight_column_to_df out name value = out.
Proof.
  intros out.
  assert (name ∈ columns out) as Hhas.
  { unfold out. rewrite append_weight_columns. case_bool_decide; [done|].
    apply elem_of_app. right. by left. }
  assert (∀ l : list (string * list cell),
            map (fun c => if bool_decide (c.1 = name)
                          then (c.1, replicate (length (index df)) value) else c)
                (map (fun c => if bool_decide (c.1 = name)
                               then (c.1, replicate (length (index df)) value) else c) l)
            = map (fun c => if bool_decide (c.1 = name)
                            then (c.1, replicate (length (index df)) value) else c) l) as Hmap.
  { intros l. rewrite map_map. apply map_ext. intros [n v]. simpl.
    destruct (decide (n = name)) as [->|Hn].
    - rewrite (bool_decide_eq_true_2 (name = name)) by done. simpl.
      by rewrite (bool_decide_eq_true_2 (name = name)).
    - rewrite (bool_decide_eq_false_2 (n = name)) by done. simpl.
      by rewrite (bool_decide_eq_false_2 (n = name)). }
  split; [done|]. split; [done|]. split; [|split; [|split]].
  - unfold out, append_weight_column_to_df, setitem. simpl. case_bool_decide as Hin.
    + induction (frame df) as [|[n v] rest IH]; [done|]. simpl.
      rewrite !filter_cons. simpl. case_bool_decide as Hn; simpl.
      * subst n. rewrite !decide_False by (by intros Hne; apply Hne). done.
      * rewrite !decide_True by done. by rewrite IH.
    + rewrite filter_app. rewrite (filter_cons _ (name, _)). simpl.
      rewrite decide_False by (by intros Hne; apply Hne).
      by rewrite filter_nil, app_nil_r.
  - intros values Hin. by apply append_weight_values in Hin.
  - unfold out, append_weight_column_to_df, setitem. simpl. case_bool_decide.
    + by rewrite length_map.
    + rewrite length_app. simpl. lia.
  - unfold append_weight_column_to_df, setitem at 1.
    rewrite bool_decide_eq_true_2 by done.
    unfold out, append_weight_column_to_df, setitem. simpl.
    case_bool_decide as Hin; f_equal.
    + apply Hmap.
    + rewrite map_app. simpl. rewrite bool_decide_eq_true_2 by done. f_equal.
      transitivity (map id (frame df)); [|apply map_id].
      apply map_ext_in. intros [n v] Hc. simpl. case_bool_decide as Hn; [|done].
      subst n. exfalso. apply Hin. unfold columns. apply list_elem_of_fmap.
      exists (name, v). split; [done|]. by apply list_elem_of_In.
Qed.

Lemma append_weight_column_to_df_spec_witness :
  [Text "1h"; Text "1h"; Text "1h"]
  = replicate (length (index (new_DataFrame sample_history))) (Text "1h").
Proof.
  apply (proj1 (proj2 (proj2 (proj2
           (append_weight_column_to_df_spec (new_DataFrame sample_history) "weight" (Text "1h")))))
           [Text "1h"; Text "1h"; Text "1h"]).
  unfold append_weight_column_to_df, setitem. simpl. do 3 right. left.
Defined.

(** ** Adding rows, case by case *)

Lemma last_None_nil {A} (l : list A) : last l = None → l = [].
Proof.
  intros Hlast. destruct l as [|x l]; [done|].
  destruct (last_is_Some (x :: l)) as [_ Hsome].
  destruct Hsome as [y Hy]; [done|]. congruence.
Qed.

Lemma range_count (lo count : Z) : range lo (lo + count) = seqZ lo count.
Proof. unfold range. f_equal. lia. Qed.

Lemma add_extra_rows_no_rows (df : DataFrame) (count : Z) :
  index df = [] → add_extra_rows_to_bottom df count = Raise IndexError.
Proof. unfold add_extra_rows_to_bottom. by intros ->. Qed.

Lemma add_extra_rows_none_to_add (df : DataFrame) (count : Z) :
  index df ≠ [] → count ≤ 0 → add_extra_rows_to_bottom df count = Ok df.
Proof.
  unfold add_extra_rows_to_bottom. intros Hne Hcount.
  destruct (last (index df)) as [final|] eqn:Hlast.
  - simpl. rewrite range_count, seqZ_nil, app_nil_r by done.
    unfold reindex. by rewrite bool_decide_eq_true_2.
  - by apply last_None_nil in Hlast.
Qed.

Lemma longer_index_differs (labels : list Z) (lo count : Z) :
  0 < count → labels ++ seqZ lo count ≠ labels.
Proof.
  intros Hcount Heq. apply (f_equal length) in Heq.
  rewrite length_app, length_seqZ in Heq. lia.
Qed.

Lemma add_extra_rows_duplicate_labels (df : DataFrame) (count : Z) :
  index df ≠ [] → 0 < count → ¬ NoDup (index df) →
  add_extra_rows_to_bottom df count = Raise ValueError.
Proof.
  unfold add_extra_rows_to_bottom. intros Hne Hcount Hdup.
  destruct (last (index df)) as [final|] eqn:Hlast.
  - simpl. rewrite range_count. unfold reindex.
    rewrite bool_decide_eq_false_2 by (by apply longer_index_differs).
    by rewrite bool_decide_eq_false_2.
  - by apply last_None_nil in Hlast.
Qed.

Lemma add_extra_rows_distinct_labels (df : DataFrame) (count : Z) :
  index df ≠ [] → 0 < count → NoDup (index df) →
  ∃ final padded,
    last (index df) = Some final
    ∧ add_extra_rows_to_bottom df count = Ok padded
    ∧ index padded = index df ++ seqZ (final + 1) count
    ∧ columns padded = columns df.
Proof.
  unfold add_extra_rows_to_bottom. intros Hne Hcount Hnd.
  destruct (last (index df)) as [final|] eqn:Hlast.
  - simpl. rewrite range_count. unfold reindex.
    rewrite bool_decide_eq_false_2 by (by apply longer_index_differs).
    rewrite bool_decide_eq_true_2 by done.
    do 2 eexists. split; [done|]. split; [done|]. split; [done|].
    unfold columns. simpl. rewrite <- list_fmap_compose. by apply list_fmap_ext.
  - by apply last_None_nil in Hlast.
Qed.

(** X9: [add_extra_rows_to_bottom] raises the index error on a frame without
    rows; with a count of rows that is not positive it returns the frame as
    it is; with a positive count it raises the value error when the index
    has a label twice and otherwise returns a frame with the same columns
    whose index goes on counting after the last label. *)
Theorem add_extra_rows_to_bottom_cases (df : DataFrame) (empty_rows_to_add : Z) :
  (index df = [] → add_extra_rows_to_bottom df empty_rows_to_add = Raise IndexError)
  ∧ (index df ≠ [] → empty_rows_to_add ≤ 0 →
     add_extra_rows_to_bottom df empty_rows_to_add = Ok df)
  ∧ (index df ≠ [] → 0 < empty_rows_to_add → ¬ NoDup (index df) →
     add_extra_rows_to_bottom df empty_rows_to_add = Raise ValueError)
  ∧ (index df ≠ [] → 0 < empty_rows_to_add → NoDup (index df) →
     ∃ final padded,
       last (index df) = Some final
       ∧ add_extra_rows_to_bottom df empty_rows_to_add = Ok padded
       ∧ index padded = index df ++ seqZ (final + 1) empty_rows_to_add
       ∧ columns padded = columns df).
Proof.
  split; [apply add_extra_rows_no_rows|].
  split; [apply add_extra_rows_none_to_add|].
  split; [apply add_extra_rows_duplicate_labels|apply add_extra_rows_distinct_labels].
Qed.

Lemma add_extra_rows_to_bottom_cases_witness :
  add_extra_rows_to_bottom (new_DataFrame []) 2 = Raise IndexError
  ∧ add_extra_rows_to_bottom (new_DataFrame sample_history) (-1)
    = Ok (new_DataFrame sample_history)
  ∧ add_extra_rows_to_bottom {| index := [0; 0]; frame := [("open", [Num 1; Num 2])] |} 1
    = Raise ValueError
  ∧ ∃ final padded,
      last (index (new_DataFrame sample_history)) = Some final
      ∧ add_extra_rows_to_bottom (new_DataFrame sample_history) 2 = Ok padded
      ∧ index padded = index (new_DataFrame sample_history) ++ seqZ (final + 1) 2
      ∧ columns padded = columns (new_DataFrame sample_history).
Proof.
  split; [|split; [|split]].
  - by apply (proj1 (add_extra_rows_to_bottom_cases (new_DataFrame []) 2)).
  - apply (proj1 (proj2 (add_extra_rows_to_bottom_cases (new_DataFrame sample_history) (-1)))).
    + discriminate.
    + lia.
  - apply (proj1 (proj2 (proj2 (add_extra_rows_to_bottom_cases
                                  {| index := [0; 0]; frame := [("open", [Num 1; Num 2])] |} 1)))).
    + discriminate.
    + lia.
    + intros Hnd. apply (bool_decide_pack _) in Hnd. vm_compute in Hnd. exact Hnd.
  - apply (proj2 (proj2 (proj2 (add_extra_rows_to_bottom_cases
                                  (new_DataFrame sample_history) 2)))).
    + discriminate.
    + lia.
    + refine (bool_decide_unpack _ _). vm_compute. exact I.
Defined.

(** ** Padding any frame *)

(** X10: whatever the frame, when the padding succeeds the state is the one
    the example's initialization left, the result has as many rows as the
    longer of the frame and the example, the labels of the frame come first
    and unchanged, and the columns keep their names: rows are never taken
    away. *)
Theorem pad_extra_rows_never_truncates
    (history_df padded : DataFrame) (example : RawHistory) (st st1 st2 : State) :
  initialize_example st = (Ok example, st1) →
  pad_extra_rows_if_necessary history_df st = (Ok padded, st2) →
  st2 = st1
  ∧ length (index padded) = Nat.max (length (index history_df)) (length example)
  ∧ index history_df `prefix_of` index padded
  ∧ columns padded = columns history_df.
Proof.
  intros Hinit. unfold pad_extra_rows_if_necessary, bind. rewrite Hinit. run.
  rewrite (initialize_example_stores _ _ _ Hinit).
  unfold calculate_rows_to_add, shape. simpl.
  set (count := Z.of_nat (length example) - Z.of_nat (length (index history_df))).
  destruct (Z.ltb_spec 0 count) as [Hlt|Hge].
  - destruct (decide (index history_df = [])) as [Hnil|Hne].
    { by rewrite (add_extra_rows_no_rows _ _ Hnil). }
    destruct (decide (NoDup (index history_df))) as [Hnd|Hdup].
    + destruct (add_extra_rows_distinct_labels history_df count Hne Hlt Hnd)
        as (final & df' & _ & -> & Hindex & Hcols).
      intros [= <- <-]. split; [done|]. rewrite Hindex.
      split; [|split; [by apply prefix_app_r|done]].
      rewrite length_app, length_seqZ. lia.
    + by rewrite (add_extra_rows_duplicate_labels history_df count Hne Hlt Hdup).
  - intros [= <- <-]. split; [done|]. split; [lia|]. done.
Qed.

Lemma pad_extra_rows_never_truncates_witness :
  let padded :=
    {| index := [0; 1; 2];
       frame := [("open", [Num 7; Null; Null]);
                 ("high", [Num 15; Null; Null]);
                 ("close", [Num 8; Null; Null])] |} in
  resolved_state = resolved_state
  ∧ length (index padded)
    = Nat.max (length (index (new_DataFrame short_history))) (length sample_history)
  ∧ index (new_DataFrame short_history) `prefix_of` index padded
  ∧ columns padded = columns (new_DataFrame short_history).
Proof.
  apply (pad_extra_rows_never_truncates (new_DataFrame short_history) _ sample_history
           resolved_state resolved_state resolved_state).
  - reflexivity.
  - reflexivity.
Defined.

(** ** Histories without fields *)

(** X11: the frame that the constructor builds of a history is empty
    exactly when the history has no record or its first record has no field;
    a history of records without fields makes [get_compatible_df] raise the
    empty-history exception with the state untouched, however many records
    it has, and when a record with a field follows a first record without
    any, the constructor refuses the history and it is the value error
    that is raised. *)
Theorem history_without_fields_is_empty (ticker_history : RawHistory) (st : State) :
  (∀ history_df, pd_DataFrame ticker_history = Ok history_df →
     (empty history_df = true
      ↔ ticker_history = [] ∨ ∃ rest, ticker_history = [] :: rest))
  ∧ (Forall (fun k : Kline => k = []) ticker_history →
     get_compatible_df ticker_history st = (Raise EmptyDataFrameException, st))
  ∧ (∀ rest, ticker_history = [] :: rest → Exists (fun k : Kline => k ≠ []) rest →
     get_compatible_df ticker_history st = (Raise ValueError, st)).
Proof.
  assert (empty (new_DataFrame ticker_history) = true
          ↔ ticker_history = [] ∨ ∃ rest, ticker_history = [] :: rest) as Hiff.
  { destruct ticker_history as [|k rest]; [by split; [left|]|].
    unfold empty, shape. rewrite new_DataFrame_rows. simpl length.
    simpl frame. rewrite length_imap, length_fmap.
    destruct k as [|field k]; simpl.
    - split; [|done]. intros _. right. by exists rest.
    - split; [done|]. by intros [?|[? ?]]. }
  split; [|split].
  - intros history_df Hdf. apply pd_DataFrame_Ok in Hdf. by rewrite Hdf.
  - intros Hall. unfold get_compatible_df, bind, lift.
    assert (pd_DataFrame ticker_history = Ok (new_DataFrame ticker_history)) as ->.
    { destruct ticker_history as [|first rest]; [done|].
      apply Forall_cons in Hall as [-> Hall]. apply pd_DataFrame_accepts.
      eapply Forall_impl; [exact Hall|]. by intros k ->. }
    assert (empty (new_DataFrame ticker_history) = true) as ->; [|done].
    apply Hiff. destruct ticker_history as [|first rest]; [by left|].
    apply Forall_cons in Hall as [-> _]. right. by exists rest.
  - intros rest -> Hsome. unfold get_compatible_df, bind, lift.
    rewrite pd_DataFrame_refuses; [done|].
    eapply Exists_impl; [exact Hsome|]. intros [|field k] Hne; [done|]. simpl. lia.
Qed.

Lemma history_without_fields_is_empty_witness :
  (empty (new_DataFrame [[]; []; []]) = true
   ↔ [[]; []; []] = @nil Kline ∨ ∃ rest, [[]; []; []] = @nil (string * cell) :: rest)
  ∧ get_compatible_df [[]; []; []] resolved_state
    = (Raise EmptyDataFrameException, resolved_state)
  ∧ get_compatible_df [[]; [("open", Num 2)]] resolved_state
    = (Raise ValueError, resolved_state).
Proof.
  split; [|split].
  - apply (proj1 (history_without_fields_is_empty [[]; []; []] resolved_state)
             (new_DataFrame [[]; []; []])).
    reflexivity.
  - apply (proj1 (proj2 (history_without_fields_is_empty [[]; []; []] resolved_state))).
    by repeat constructor.
  - apply (proj2 (proj2 (history_without_fields_is_empty [[]; [("open", Num 2)]]
                           resolved_state)) [[("open", Num 2)]]).
    + reflexivity.
    + by constructor.
Defined.

(** ** The shape of a normalized table *)

Lemma fresh_nonempty_index (h : RawHistory) :
  empty (new_DataFrame h) = false → h ≠ [] ∧ index (new_DataFrame h) ≠ [].
Proof.
  destruct h as [|k rest]; [done|]. intros _. split; [done|].
  intros Hnil. apply (f_equal length) in Hnil.
  by rewrite new_DataFrame_rows in Hnil.
Qed.

(** With an example of at least one kline in the cache, normalization of a
    history that the constructor accepts and whose frame is not empty
    succeeds without a call: the rows are
    labelled 0, 1, ... up to the longer of the history and the example, and
    every column has one value per row. *)
Lemma get_compatible_df_shape (st : State) (k : Kline) (example h : RawHistory) :
  example_raw_history (obtainer st) = Some (k :: example) →
  pd_DataFrame h = Ok (new_DataFrame h) →
  empty (new_DataFrame h) = false →
  ∃ padded,
    get_compatible_df h st = (Ok padded, st)
    ∧ index padded = range 0 (Z.of_nat (Nat.max (length h) (S (length example))))
    ∧ columns padded = columns (new_DataFrame h)
    ∧ Forall (fun c => length c.2 = Nat.max (length h) (S (length example))) (frame padded).
Proof.
  intros Hex Hdf Hempty. destruct (fresh_nonempty_index h Hempty) as [Hh Hidx].
  pose proof (new_DataFrame_fresh h) as Hfresh.
  pose proof (new_DataFrame_rows h) as Hrows.
  unfold get_compatible_df, bind, lift. rewrite Hdf, Hempty.
  unfold pad_extra_rows_if_necessary, bind.
  rewrite (initialize_example_cached st k example Hex). run. rewrite Hex.
  unfold calculate_rows_to_add, shape. simpl. rewrite Hrows.
  destruct (Z.ltb_spec 0 (Z.of_nat (S (length example)) - Z.of_nat (length h))) as [Hlt|Hge].
  - destruct (add_extra_rows_to_bottom_fresh (new_DataFrame h) (S (length example) - length h))
      as (final & Hlast & Hadd); [done|done|lia|].
    replace (Z.of_nat (S (length example)) - Z.of_nat (length h))
      with (Z.of_nat (S (length example) - length h)) by lia.
    rewrite Hadd. eexists. split; [done|]. simpl.
    rewrite (fresh_last _ Hfresh Hidx) in Hlast. injection Hlast as <-.
    destruct Hfresh as [Hrange Hcols]. rewrite Hrows in *.
    replace (Nat.max (length h) (S (length example)))
      with (length h + (S (length example) - length h))%nat by lia.
    split; [|split].
    + rewrite Hrange. unfold range. rewrite !Z.sub_0_r, Nat2Z.inj_add, seqZ_app by lia.
      f_equal. unfold seqZ. rewrite Nat2Z.id. apply list_fmap_ext. intros _ i _. lia.
    + unfold columns. simpl. rewrite <- list_fmap_compose. by apply list_fmap_ext.
    + apply Forall_fmap. eapply Forall_impl; [exact Hcols|].
      intros [name values] Hc. unfold compose. cbn [fst snd] in *.
      rewrite length_app, length_promote, length_replicate. lia.
  - eexists. split; [done|]. destruct Hfresh as [Hrange Hcols]. rewrite Hrows in *.
    replace (Nat.max (length h) (S (length example))) with (length h) by lia.
    done.
Qed.

(** X12: for a history that the constructor accepts, with a frame that is
    not empty, and an example of at least one kline in the cache,
    [get_compatible_df] always succeeds and calls nobody; its table has the
    columns of the source, as many rows as the longer of the history and the
    example, labelled from 0 on, and one value per row in every column.  A
    history that the constructor refuses raises the value error. *)
Theorem get_compatible_df_rows (st : State) (k : Kline) (example h : RawHistory) :
  example_raw_history (obtainer st) = Some (k :: example) →
  (∀ history_df,
     pd_DataFrame h = Ok history_df →
     empty history_df = false →
     ∃ padded,
       get_compatible_df h st = (Ok padded, st)
       ∧ index padded = Z.of_nat <$> seq 0 (Nat.max (length h) (S (length example)))
       ∧ columns padded = columns history_df
       ∧ Forall (fun c => length c.2 = length (index padded)) (frame padded))
  ∧ (pd_DataFrame h = Raise ValueError →
     get_compatible_df h st = (Raise ValueError, st)).
Proof.
  intros Hex. split.
  - intros history_df Hdf Hempty.
    pose proof (pd_DataFrame_Ok _ _ Hdf) as ->.
    destruct (get_compatible_df_shape st k example h Hex Hdf Hempty)
      as (padded & Hpadded & Hindex & Hcols & Hlen).
    exists padded. rewrite Hindex, length_range, <- range_from_zero. done.
  - intros Hdf. unfold get_compatible_df, bind, lift. by rewrite Hdf.
Qed.

Lemma get_compatible_df_rows_witness :
  (∃ padded,
     get_compatible_df short_history resolved_state = (Ok padded, resolved_state)
     ∧ index padded = Z.of_nat <$> seq 0 (Nat.max (length short_history) 3)
     ∧ columns padded = columns (new_DataFrame short_history)
     ∧ Forall (fun c => length c.2 = length (index padded)) (frame padded))
  ∧ get_compatible_df ragged_history resolved_state = (Raise ValueError, resolved_state).
Proof.
  split.
  - apply (proj1 (get_compatible_df_rows resolved_state (sample_kline 1 2)
                    [sample_kline 3 4; sample_kline 5 6] short_history eq_refl)
             (new_DataFrame short_history));
      reflexivity.
  - apply (proj2 (get_compatible_df_rows resolved_state (sample_kline 1 2)
                    [sample_kline 3 4; sample_kline 5 6] ragged_history eq_refl)).
    reflexivity.
Defined.

(** ** Outcomes of an insertion *)

(** X13: an insertion raises the key error when one of the two labels is not
    a coordinate of the container, and the value error when the labels are
    coordinates but the table cannot be broadcast to the shape of the slot;
    when it succeeds the four coordinate axes are unchanged and inserting
    the same table again changes nothing. *)
Theorem insert_coin_history_outcomes (dc : DataArray) (b r : string) (history_df : DataFrame) :
  (¬ (b ∈ coord_base_assets dc ∧ r ∈ coord_reference_assets dc) →
     _insert_coin_history_in_container dc b r history_df = Raise KeyError)
  ∧ (b ∈ coord_base_assets dc → r ∈ coord_reference_assets dc →
     broadcast (transpose_values history_df)
       (length (coord_ohlcv_fields dc)) (length (coord_index_number dc)) = None →
     _insert_coin_history_in_container dc b r history_df = Raise ValueError)
  ∧ (∀ c, _insert_coin_history_in_container dc b r history_df = Ok c →
       coord_base_assets c = coord_base_assets dc
       ∧ coord_reference_assets c = coord_reference_assets dc
       ∧ coord_ohlcv_fields c = coord_ohlcv_fields dc
       ∧ coord_index_number c = coord_index_number dc
       ∧ _insert_coin_history_in_container c b r history_df = Ok c).
Proof.
  split; [|split].
  - intros Hlabels. unfold _insert_coin_history_in_container, loc_setitem.
    by rewrite bool_decide_eq_false_2.
  - intros Hb Hr Hshape. unfold _insert_coin_history_in_container, loc_setitem.
    by rewrite bool_decide_eq_true_2, Hshape.
  - intros c Hins. apply insert_coin_history_Ok in Hins as [Hins Hfits].
    apply loc_setitem_Ok in Hins as (Hb & Hr & written & Hw & ->).
    repeat split; try done.
    apply insert_coin_history_Ok. split; [|done].
    apply loc_setitem_Ok. simpl. repeat split; try done.
    exists written. split; [done|]. unfold with_slot. simpl. f_equal.
    by rewrite insert_insert_eq.
Qed.

Lemma insert_coin_history_outcomes_witness :
  _insert_coin_history_in_container sample_container "XRP" "BTC" (sample_table sample_history)
  = Raise KeyError
  ∧ _insert_coin_history_in_container sample_container "ETH" "BTC"
      (new_DataFrame (sample_history ++ short_history))
    = Raise ValueError
  ∧ _insert_coin_history_in_container
      (with_slot sample_container ("ETH", "BTC") (transpose_values (sample_table sample_history)))
      "ETH" "BTC" (sample_table sample_history)
    = Ok (with_slot sample_container ("ETH", "BTC")
            (transpose_values (sample_table sample_history))).
Proof.
  split; [|split].
  - apply (proj1 (insert_coin_history_outcomes sample_container "XRP" "BTC"
                    (sample_table sample_history))).
    intros [Hb _]. apply (bool_decide_pack _) in Hb. vm_compute in Hb. exact Hb.
  - apply (proj1 (proj2 (insert_coin_history_outcomes sample_container "ETH" "BTC"
                           (new_DataFrame (sample_history ++ short_history))))).
    + refine (bool_decide_unpack _ _). vm_compute. exact I.
    + refine (bool_decide_unpack _ _). vm_compute. exact I.
    + reflexivity.
  - apply (proj2 (proj2 (insert_coin_history_outcomes sample_container "ETH" "BTC"
                           (sample_table sample_history)))).
    reflexivity.
Defined.

(** ** A turn of the loop that fits *)

Lemma normalized_columns (df : DataFrame) (fields : list string) (value : cell) :
  NoDup (columns df) →
  (∀ field, field ∈ fields → field ∈ columns df) →
  let table :=
    append_weight_column_to_df
      (drop_unnecessary_columns_from_df df (fields ++ ["weight"])) "weight" value in
  (∀ name, name ∈ columns table ↔ name ∈ fields ∨ name = "weight")
  ∧ NoDup (columns table).
Proof.
  intros Hdistinct Hfields table.
  assert (columns table
          = if bool_decide ("weight" ∈ filter (fun name => name ∈ fields ++ ["weight"]) (columns df))
            then filter (fun name => name ∈ fields ++ ["weight"]) (columns df)
            else filter (fun name => name ∈ fields ++ ["weight"]) (columns df) ++ ["weight"])
    as Htable.
  { unfold table. by rewrite append_weight_columns, drop_unnecessary_columns. }
  rewrite Htable. case_bool_decide as Hweight; split.
  - intros name. rewrite list_elem_of_filter, elem_of_app, list_elem_of_singleton. split.
    + tauto.
    + intros [Hin| ->]; [by auto|]. apply list_elem_of_filter in Hweight. tauto.
  - by apply NoDup_filter.
  - intros name.
    rewrite elem_of_app, list_elem_of_filter, elem_of_app, !list_elem_of_singleton.
    split; [tauto|]. intros [Hin| ->]; [by auto|by right].
  - apply NoDup_app. split; [by apply NoDup_filter|]. split; [|apply NoDup_singleton].
    intros name Hin Hname. by apply list_elem_of_singleton in Hname as ->.
Qed.

Lemma normalized_lengths (df : DataFrame) (necessary : list string) (value : cell) (n : nat) :
  length (index df) = n →
  Forall (fun c => length c.2 = n) (frame df) →
  Forall (fun c => length c.2 = n)
    (frame (append_weight_column_to_df
              (drop_unnecessary_columns_from_df df necessary) "weight" value)).
Proof.
  intros Hrows Hcols.
  assert (Forall (fun c => length c.2 = n)
            (frame (drop_unnecessary_columns_from_df df necessary))) as Hkept.
  { rewrite drop_unnecessary_frame. apply Forall_forall. intros c Hc.
    apply list_elem_of_filter in Hc as [_ Hc].
    by apply (proj1 (Forall_forall _ _) Hcols). }
  unfold append_weight_column_to_df, setitem. simpl. rewrite Hrows.
  case_bool_decide.
  - apply Forall_fmap. eapply Forall_impl; [exact Hkept|].
    intros [name values] Hlen. unfold compose. simpl in *.
    case_bool_decide; simpl; [by rewrite length_replicate|done].
  - apply Forall_app. split; [done|]. constructor; [|constructor].
    simpl. by rewrite length_replicate.
Qed.

(** X14: take a container whose field axis is the requested fields followed
    by the weight entry and whose index axis has the depth of the cached
    example.  For a pair of its coordinates and a history of at most that
    many klines of 64-bit integers, none with more fields than the first,
    whose records have distinct field names, the requested fields among
    them, the turn of the loop succeeds and calls nobody: the slot of the
    pair receives the table as it is, one row per field of the axis and one
    entry per index number. *)
Theorem populate_step_fits
    (self : PrimitiveDataContainerOperations) (dims : Dimensions) (dc : DataArray)
    (b r : string) (first : Kline) (rest : RawHistory) (st : State)
    (k : Kline) (example : RawHistory) (fields : list string) :
  example_raw_history (obtainer st) = Some (k :: example) →
  lists st !! ohlcv_fields dims = Some (fields ++ ["weight"]) →
  coord_ohlcv_fields dc = fields ++ ["weight"] →
  length (coord_index_number dc) = S (length example) →
  b ∈ coord_base_assets dc → r ∈ coord_reference_assets dc →
  first ≠ [] → NoDup first.*1 →
  Forall (fun kline : Kline => (length kline ≤ length first)%nat) rest →
  int64_history (first :: rest) →
  NoDup fields → "weight" ∉ fields →
  (∀ field, field ∈ fields → field ∈ first.*1) →
  (length (first :: rest) ≤ S (length example))%nat →
  ∃ padded,
    get_compatible_df (first :: rest) st = (Ok padded, st)
    ∧ let table :=
        append_weight_column_to_df
          (drop_unnecessary_columns_from_df padded (fields ++ ["weight"]))
          "weight" (Text (ops_interval self)) in
      populate_step self dims dc ((b, r), first :: rest) st
      = (Ok (with_slot dc (b, r) (transpose_values table)), st)
      ∧ columns table ≡ₚ fields ++ ["weight"]
      ∧ length (transpose_values table) = length (coord_ohlcv_fields dc)
      ∧ Forall (fun row => length row = length (coord_index_number dc))
          (transpose_values table).
Proof.
  intros Hex Hlist Hfields Hdepth Hb Hr Hfirst Hnames Hwidth _ Hnd Hweight Hreq Hlen.
  pose proof (pd_DataFrame_accepts first rest Hwidth) as Haccepted.
  assert (empty (new_DataFrame (first :: rest)) = false) as Hempty.
  { apply not_true_is_false. intros Htrue.
    unfold empty, shape in Htrue. rewrite new_DataFrame_rows in Htrue. simpl in Htrue.
    rewrite length_imap, length_fmap in Htrue. by destruct first. }
  destruct (get_compatible_df_shape st k example (first :: rest) Hex Haccepted Hempty)
    as (padded & Hdf & Hindex & Hcols & Hlens).
  replace (Nat.max (length (first :: rest)) (S (length example)))
    with (S (length example)) in * by lia.
  rewrite new_DataFrame_columns in Hcols.
  exists padded. split; [done|]. intros table.
  assert (length (index padded) = S (length example)) as Hrows.
  { by rewrite Hindex, length_range. }
  destruct (normalized_columns padded fields (Text (ops_interval self)))
    as [Helem Hdistinct]; [by rewrite Hcols|by rewrite Hcols|]. fold table in Helem, Hdistinct.
  assert (columns table ≡ₚ fields ++ ["weight"]) as Hperm.
  { apply NoDup_Permutation; [done| |].
    - apply NoDup_app. split; [done|]. split; [|apply NoDup_singleton].
      intros name Hin Hname. by apply list_elem_of_singleton in Hname as ->.
    - intros name. rewrite Helem, elem_of_app, list_elem_of_singleton. done. }
  assert (length (transpose_values table) = length (coord_ohlcv_fields dc)) as Hcount.
  { rewrite length_transpose_values, Hfields, <- Hperm.
    unfold columns. by rewrite length_fmap. }
  assert (Forall (fun row => length row = length (coord_index_number dc))
            (transpose_values table)) as Hrowlen.
  { apply transpose_values_lengths. rewrite Hdepth.
    by apply normalized_lengths. }
  split; [|done].
  etransitivity;
    [exact (populate_step_inserts self dims dc b r _ st st padded _ Hdf Hlist)|].
  fold table. f_equal. apply insert_coin_history_Ok. split.
  - apply loc_setitem_Ok. repeat split; try done.
    exists (transpose_values table). split; [|done].
    by apply broadcast_same_shape.
  - apply fits_with_columns, append_weight_frame_nonempty.
Qed.

Lemma populate_step_fits_witness :
  ∃ padded,
    get_compatible_df short_history resolved_state = (Ok padded, resolved_state)
    ∧ let table :=
        append_weight_column_to_df
          (drop_unnecessary_columns_from_df padded (["open"; "close"] ++ ["weight"]))
          "weight" (Text (ops_interval sample_operations)) in
      populate_step sample_operations sample_dimensions sample_container
        (("LTC", "BTC"), short_history) resolved_state
      = (Ok (with_slot sample_container ("LTC", "BTC") (transpose_values table)),
         resolved_state)
      ∧ columns table ≡ₚ ["open"; "close"] ++ ["weight"]
      ∧ length (transpose_values table) = length (coord_ohlcv_fields sample_container)
      ∧ Forall (fun row => length row = length (coord_index_number sample_container))
          (transpose_values table).
Proof.
  apply (populate_step_fits sample_operations sample_dimensions sample_container
           "LTC" "BTC" (sample_kline 7 8) [] resolved_state
           (sample_kline 1 2) [sample_kline 3 4; sample_kline 5 6] ["open"; "close"]).
  - reflexivity.
  - reflexivity.
  - reflexivity.
  - reflexivity.
  - refine (bool_decide_unpack _ _). vm_compute. exact I.
  - refine (bool_decide_unpack _ _). vm_compute. exact I.
  - discriminate.
  - refine (bool_decide_unpack _ _). vm_compute. exact I.
  - constructor.
  - repeat (constructor; simpl; try lia).
  - refine (bool_decide_unpack _ _). vm_compute. exact I.
  - intros Hin. apply (bool_decide_pack _) in Hin. vm_compute in Hin. exact Hin.
  - intros field Hin.
    repeat (apply elem_of_cons in Hin as [->|Hin];
            [refine (bool_decide_unpack _ _); vm_compute; exact I|]).
    by apply elem_of_nil in Hin.
  - simpl. lia.
Defined.

(** ** A history longer than the example *)

Lemma weight_row_present (df : DataFrame) (s : string) :
  replicate (length (index df)) (Text s)
  ∈ transpose_values (append_weight_column_to_df df "weight" (Text s)).
Proof.
  rewrite transpose_values_with_weight. apply list_elem_of_fmap.
  exists ("weight", replicate (length (index df)) (Text s)).
  split; [done|]. apply weight_column_present.
Qed.

(** X15: rows are never taken away, so a history with more klines than the
    cached example yields a table that does not fit the slot: for a pair of
    the coordinates of a container whose index axis has the depth of the
    example, the turn of the loop raises the value error of the insertion. *)
Theorem longer_history_does_not_fit
    (self : PrimitiveDataContainerOperations) (dims : Dimensions) (dc : DataArray)
    (b r : string) (h : RawHistory) (st : State)
    (k : Kline) (example : RawHistory) (necessary_columns : list string) :
  example_raw_history (obtainer st) = Some (k :: example) →
  lists st !! ohlcv_fields dims = Some necessary_columns →
  length (coord_index_number dc) = S (length example) →
  b ∈ coord_base_assets dc → r ∈ coord_reference_assets dc →
  empty (new_DataFrame h) = false →
  (S (length example) < length h)%nat →
  populate_step self dims dc ((b, r), h) st = (Raise ValueError, st).
Proof.
  intros Hex Hlist Hdepth Hb Hr Hempty Hlong.
  destruct (pd_DataFrame_outcomes h) as [Haccepted|Hrefused]; last first.
  { unfold populate_step, attempt, get_compatible_df, lift, bind. by rewrite Hrefused. }
  destruct (get_compatible_df_shape st k example h Hex Haccepted Hempty)
    as (padded & Hdf & Hindex & _ & _).
  replace (Nat.max (length h) (S (length example))) with (length h) in * by lia.
  etransitivity;
    [exact (populate_step_inserts self dims dc b r h st st padded _ Hdf Hlist)|].
  f_equal. unfold _insert_coin_history_in_container, loc_setitem.
  rewrite bool_decide_eq_true_2 by done.
  set (table := drop_unnecessary_columns_from_df padded necessary_columns).
  assert (broadcast
            (transpose_values
               (append_weight_column_to_df table "weight" (Text (ops_interval self))))
            (length (coord_ohlcv_fields dc)) (length (coord_index_number dc)) = None) as ->;
    [|done].
  unfold broadcast.
  assert (mapM (broadcast_to (length (coord_index_number dc)))
            (transpose_values
               (append_weight_column_to_df table "weight" (Text (ops_interval self))))
          = None) as ->; [|done].
  apply mapM_None_2. apply Exists_exists.
  exists (replicate (length (index table)) (Text (ops_interval self))).
  split; [apply weight_row_present|].
  assert (length (index table) = length h) as Hrows.
  { unfold table. simpl. by rewrite Hindex, length_range. }
  unfold broadcast_to. rewrite length_replicate, Hrows, Hdepth.
  rewrite bool_decide_eq_false_2 by lia.
  destruct (length h) as [|[|n]]; [lia|lia|done].
Qed.

Lemma longer_history_does_not_fit_witness :
  populate_step sample_operations sample_dimensions sample_container
    (("ETH", "BTC"), sample_history ++ short_history) resolved_state
  = (Raise ValueError, resolved_state).
Proof.
  apply (longer_history_does_not_fit sample_operations sample_dimensions sample_container
           "ETH" "BTC" (sample_history ++ short_history) resolved_state
           (sample_kline 1 2) [sample_kline 3 4; sample_kline 5 6]
           ["open"; "close"; "weight"]).
  - reflexivity.
  - reflexivity.
  - reflexivity.
  - refine (bool_decide_unpack _ _). vm_compute. exact I.
  - refine (bool_decide_unpack _ _). vm_compute. exact I.
  - reflexivity.
  - simpl. lia.
Defined.

(** ** Failures that are not skipped *)

(** X16: only the empty-history exception is skipped.  When a pair has a
    history that the constructor accepts, no example is cached and the
    exchange fails to deliver one, the loop stops at that pair with the
    error of the exchange, after that one call, and none of the later pairs
    is processed.  When the constructor refuses the history of a pair, the
    loop stops at that pair with the value error, before any call. *)
Theorem failing_example_fetch_aborts_the_loop
    (self : PrimitiveDataContainerOperations) (dims : Dimensions) (dc : DataArray)
    (pair : string * string) (h : RawHistory)
    (later : list ((string * string) * RawHistory)) (st : State) (e : exn) :
  (∀ history_df,
     pd_DataFrame h = Ok history_df →
     empty history_df = false →
     truthy (example_raw_history (obtainer st)) = None →
     history_answer (obtainer st) "ETHBTC" (length (requests st)) = Raise e →
     e ≠ EmptyDataFrameException →
     populate_loop self dims dc ((pair, h) :: later) st
     = (Raise e, asked st (HistoryRequest "ETHBTC")))
  ∧ (pd_DataFrame h = Raise ValueError →
     populate_loop self dims dc ((pair, h) :: later) st = (Raise ValueError, st)).
Proof.
  destruct pair as [b r]. split.
  - intros history_df Hdf Hempty Hex Hdown Hne.
    cbn [populate_loop]. unfold bind at 1.
    assert (populate_step self dims dc ((b, r), h) st
            = (Raise e, asked st (HistoryRequest "ETHBTC"))) as ->; [|done].
    unfold populate_step, attempt, get_compatible_df, lift, bind. rewrite Hdf, Hempty.
    unfold pad_extra_rows_if_necessary, bind.
    rewrite (initialize_example_fetches st Hex), Hdown.
    by destruct e.
  - intros Hdf. cbn [populate_loop]. unfold bind at 1.
    assert (populate_step self dims dc ((b, r), h) st = (Raise ValueError, st)) as ->; [|done].
    unfold populate_step, attempt, get_compatible_df, lift, bind. by rewrite Hdf.
Qed.

Lemma failing_example_fetch_aborts_the_loop_witness :
  populate_loop sample_operations sample_dimensions sample_container
    [(("ETH", "BTC"), sample_history); (("LTC", "BTC"), short_history)]
    (fresh_state always_down)
  = (Raise (MarketError 503), asked (fresh_state always_down) (HistoryRequest "ETHBTC"))
  ∧ populate_loop sample_operations sample_dimensions sample_container
      [(("ETH", "BTC"), ragged_history); (("LTC", "BTC"), short_history)]
      (fresh_state always_down)
    = (Raise ValueError, fresh_state always_down).
Proof.
  split.
  - apply (proj1 (failing_example_fetch_aborts_the_loop sample_operations sample_dimensions
                    sample_container ("ETH", "BTC") sample_history
                    [(("LTC", "BTC"), short_history)] (fresh_state always_down)
                    (MarketError 503))
             (new_DataFrame sample_history)).
    + reflexivity.
    + reflexivity.
    + reflexivity.
    + reflexivity.
    + discriminate.
  - apply (proj2 (failing_example_fetch_aborts_the_loop sample_operations sample_dimensions
                    sample_container ("ETH", "BTC") ragged_history
                    [(("LTC", "BTC"), short_history)] (fresh_state always_down)
                    (MarketError 503))).
    reflexivity.
Defined.

(** ** What the loop leaves alone *)

Lemma get_compatible_df_lists (h : RawHistory) (st : State) :
  lists (get_compatible_df h st).2 = lists st.
Proof.
  unfold get_compatible_df, bind, lift.
  destruct (pd_DataFrame h) as [history_df|e]; [|done].
  destruct (empty history_df); [done|].
  unfold pad_extra_rows_if_necessary, bind.
  destruct (initialize_example_outcomes st) as [(k & t & ->)|[(e & ->)|(ex & ->)]]; run.
  - destruct (example_raw_history (obtainer st)); [|done].
    destruct (0 <? _); [|done]. by destruct (add_extra_rows_to_bottom _ _).
  - done.
  - destruct (0 <? _); [|done]. by destruct (add_extra_rows_to_bottom _ _).
Qed.

Lemma populate_step_lists (self : PrimitiveDataContainerOperations) (dims : Dimensions)
    (dc : DataArray) (item : (string * string) * RawHistory) (st : State) :
  lists (populate_step self dims dc item st).2 = lists st.
Proof.
  destruct item as [[b r] h]. unfold populate_step, bind, attempt.
  pose proof (get_compatible_df_lists h st) as Hsame.
  destruct (get_compatible_df h st) as [[df|e] st1]; simpl in *.
  - unfold read_list. by destruct (lists st1 !! _).
  - by destruct e.
Qed.

Lemma populate_step_coordinates (self : PrimitiveDataContainerOperations) (dims : Dimensions)
    (dc dc' : DataArray) (item : (string * string) * RawHistory) (st st' : State) :
  populate_step self dims dc item st = (Ok dc', st') →
  coord_base_assets dc' = coord_base_assets dc
  ∧ coord_reference_assets dc' = coord_reference_assets dc
  ∧ coord_ohlcv_fields dc' = coord_ohlcv_fields dc
  ∧ coord_index_number dc' = coord_index_number dc.
Proof.
  destruct item as [[b r] h]. unfold populate_step, bind, attempt.
  destruct (get_compatible_df h st) as [[df|e] st1].
  - unfold read_list. destruct (lists st1 !! _); [|done].
    intros [= Hset _]. apply insert_coin_history_Ok in Hset as [Hset _].
    by apply loc_setitem_Ok in Hset as (_ & _ & w & _ & ->).
  - destruct e; try done. by intros [= <- _].
Qed.

(** X17: when the loop of [populate_container] completes, the container has
    the coordinate axes it started with, the lists of the caller are as they
    were, and the slot of every pair that is not in the dictionary of
    histories is untouched. *)
Theorem populate_loop_footprint
    (self : PrimitiveDataContainerOperations) (dims : Dimensions)
    (historical_data : list ((string * string) * RawHistory))
    (dc dc' : DataArray) (st st' : State) :
  populate_loop self dims dc historical_data st = (Ok dc', st') →
  coord_base_assets dc' = coord_base_assets dc
  ∧ coord_reference_assets dc' = coord_reference_assets dc
  ∧ coord_ohlcv_fields dc' = coord_ohlcv_fields dc
  ∧ coord_index_number dc' = coord_index_number dc
  ∧ lists st' = lists st
  ∧ ∀ pair, pair ∉ historical_data.*1 → slots dc' !! pair = slots dc !! pair.
Proof.
  revert dc st. induction historical_data as [|item rest IH]; intros dc st; simpl.
  - by intros [= <- <-].
  - unfold bind.
    pose proof (populate_step_lists self dims dc item st) as Hlists.
    destruct (populate_step self dims dc item st) as [[dc1|e] st1] eqn:Hstep; [|done].
    intros Hloop. destruct (IH _ _ Hloop) as (Hb & Hr & Hf & Hi & Hl & Hslots).
    destruct (populate_step_coordinates _ _ _ _ _ _ _ Hstep) as (Hb1 & Hr1 & Hf1 & Hi1).
    simpl in Hlists. repeat split; try congruence.
    intros pair Hpair. rewrite not_elem_of_cons in Hpair. destruct Hpair as [Hne Hpair].
    rewrite (Hslots pair Hpair).
    by apply (populate_step_other_slot self dims dc dc1 item st st1 pair).
Qed.

Lemma populate_loop_footprint_witness :
  coord_base_assets
    (with_slot sample_container ("LTC", "BTC")
       [[Num 7; Null; Null]; [Num 8; Null; Null]; [Text "1h"; Text "1h"; Text "1h"]])
  = coord_base_assets sample_container
  ∧ coord_reference_assets
      (with_slot sample_container ("LTC", "BTC")
         [[Num 7; Null; Null]; [Num 8; Null; Null]; [Text "1h"; Text "1h"; Text "1h"]])
    = coord_reference_assets sample_container
  ∧ coord_ohlcv_fields
      (with_slot sample_container ("LTC", "BTC")
         [[Num 7; Null; Null]; [Num 8; Null; Null]; [Text "1h"; Text "1h"; Text "1h"]])
    = coord_ohlcv_fields sample_container
  ∧ coord_index_number
      (with_slot sample_container ("LTC", "BTC")
         [[Num 7; Null; Null]; [Num 8; Null; Null]; [Text "1h"; Text "1h"; Text "1h"]])
    = coord_index_number sample_container
  ∧ lists resolved_state = lists resolved_state
  ∧ ∀ pair, pair ∉ [(("LTC", "BTC"), short_history)].*1 →
      slots (with_slot sample_container ("LTC", "BTC")
               [[Num 7; Null; Null]; [Num 8; Null; Null]; [Text "1h"; Text "1h"; Text "1h"]])
        !! pair
      = slots sample_container !! pair.
Proof.
  apply (populate_loop_footprint sample_operations sample_dimensions
           [(("LTC", "BTC"), short_history)] sample_container _
           resolved_state resolved_state).
  reflexivity.
Defined.

(** ** Resolving the dimensions *)

(** X18: when the example cannot be obtained, the resolution of the
    dimensions fails with that error before it touches the field list of the
    caller; when it is obtained, the dimensions carry the two asset lists as
    given, the caller's list and the index numbers 0, 1, ... of the example,
    and nothing but that list has changed since the example was there. *)
Theorem get_dimension_coordinates_spec
    (fields_at : nat) (bases refs : list string) (st : State) :
  (∀ e st', initialize_example st = (Raise e, st') →
     get_dimension_coordinates_from_fields_and_assets fields_at bases refs st
     = (Raise e, st')
     ∧ lists st' = lists st)
  ∧ (∀ example st' fields,
       initialize_example st = (Ok example, st') →
       lists st !! fields_at = Some fields →
       ∃ st'',
         get_dimension_coordinates_from_fields_and_assets fields_at bases refs st
         = (Ok {| base_assets := bases;
                  reference_assets := refs;
                  ohlcv_fields := fields_at;
                  index_number := Z.of_nat <$> seq 0 (length example) |}, st'')
         ∧ lists st'' = <[fields_at := fields ++ ["weight"]]> (lists st)
         ∧ obtainer st'' = obtainer st'
         ∧ requests st'' = requests st').
Proof.
  unfold get_dimension_coordinates_from_fields_and_assets, get_depth_of_indices, bind.
  split.
  - intros e st' Hinit. rewrite Hinit. split; [done|].
    destruct (initialize_example_outcomes st) as [(k & t & Heq)|[(e' & Heq)|(h & Heq)]];
      rewrite Heq in Hinit; try done. by injection Hinit as _ <-.
  - intros example st' fields Hinit Hfields. rewrite Hinit. run.
    assert (lists st' = lists st) as Hsame.
    { destruct (initialize_example_outcomes st) as [(k & t & Heq)|[(e' & Heq)|(h & Heq)]];
        rewrite Heq in Hinit; try done; by injection Hinit as _ <-. }
    unfold list_append. rewrite Hsame, Hfields, range_from_zero.
    eexists. split; [done|]. done.
Qed.

Lemma get_dimension_coordinates_spec_witness :
  (get_dimension_coordinates_from_fields_and_assets 0 ["ETH"] ["BTC"] (fresh_state always_down)
   = (Raise (MarketError 503), asked (fresh_state always_down) (HistoryRequest "ETHBTC"))
   ∧ lists (asked (fresh_state always_down) (HistoryRequest "ETHBTC"))
     = lists (fresh_state always_down))
  ∧ ∃ st'',
      get_dimension_coordinates_from_fields_and_assets 0 ["ETH"] ["BTC"]
        (fresh_state always_sample)
      = (Ok {| base_assets := ["ETH"];
               reference_assets := ["BTC"];
               ohlcv_fields := 0%nat;
               index_number := Z.of_nat <$> seq 0 (length sample_history) |}, st'')
      ∧ lists st'' = <[0%nat := ["open"; "close"] ++ ["weight"]]> (lists (fresh_state always_sample))
      ∧ obtainer st''
        = obtainer (with_example (asked (fresh_state always_sample) (HistoryRequest "ETHBTC"))
                      sample_history)
      ∧ requests st''
        = requests (with_example (asked (fresh_state always_sample) (HistoryRequest "ETHBTC"))
                      sample_history).
Proof.
  split.
  - apply (proj1 (get_dimension_coordinates_spec 0 ["ETH"] ["BTC"] (fresh_state always_down))).
    reflexivity.
  - apply (proj2 (get_dimension_coordinates_spec 0 ["ETH"] ["BTC"] (fresh_state always_sample))
             sample_history).
    + reflexivity.
    + by vm_compute.
Defined.

(** ** The whole build *)

Lemma populate_loop_coordinates (self : PrimitiveDataContainerOperations) (dims : Dimensions)
    (items : list ((string * string) * RawHistory)) :
  ∀ dc dc' st st',
    populate_loop self dims dc items st = (Ok dc', st') →
    coord_base_assets dc' = coord_base_assets dc
    ∧ coord_reference_assets dc' = coord_reference_assets dc
    ∧ coord_ohlcv_fields dc' = coord_ohlcv_fields dc
    ∧ coord_index_number dc' = coord_index_number dc.
Proof.
  induction items as [|item rest IH]; intros dc dc' st st'; simpl.
  - by intros [= <- _].
  - unfold bind.
    destruct (populate_step self dims dc item st) as [[dc1|e] st1] eqn:Hstep; [|done].
    intros Hloop. destruct (IH _ _ _ _ Hloop) as (Hb & Hr & Hf & Hi).
    destruct (populate_step_coordinates _ _ _ _ _ _ _ Hstep) as (Hb1 & Hr1 & Hf1 & Hi1).
    repeat split; congruence.
Qed.

(** X19: a build that cannot obtain the example fails with the error of the
    exchange after that single call and changes nothing else.  A build that
    has the example but cannot obtain the tickers fails with the error of
    that call, and by then the weight entry has been appended to the field
    list of the caller. *)
Theorem build_failures (self : PrimitiveDataContainerOperations) (st : State) :
  (∀ e, truthy (example_raw_history (obtainer st)) = None →
     history_answer (obtainer st) "ETHBTC" (length (requests st)) = Raise e →
     get_populated_primitive_container self st
     = (Raise e, asked st (HistoryRequest "ETHBTC")))
  ∧ (∀ k example fields e,
       example_raw_history (obtainer st) = Some (k :: example) →
       lists st !! ops_ohlcv_fields self = Some fields →
       harmonizer_get_all_raw_tickers (market_harmonizer (obtainer st)) (length (requests st))
       = Raise e →
       ∃ st',
         get_populated_primitive_container self st = (Raise e, st')
         ∧ lists st' = <[ops_ohlcv_fields self := fields ++ ["weight"]]> (lists st)
         ∧ requests st' = requests st ++ [TickersRequest]
         ∧ obtainer st' = obtainer st).
Proof.
  unfold get_populated_primitive_container,
    get_dimension_coordinates_from_fields_and_assets, get_depth_of_indices.
  split.
  - intros e Hex Hdown. unfold bind.
    by rewrite (initialize_example_fetches st Hex), Hdown.
  - intros k example fields e Hex Hfields Hdown. unfold bind.
    rewrite (initialize_example_cached st k example Hex). run.
    unfold list_append. rewrite Hfields.
    unfold set_coords_dimensions_in_empty_container, bind, read_list. simpl.
    rewrite lookup_insert_eq. run.
    unfold populate_container, get_historical_data_relevant_coins_from_base_and_reference_assets,
      get_all_raw_tickers, bind, ask. simpl. rewrite Hdown.
    eexists. split; [done|]. done.
Qed.

Lemma build_failures_witness :
  get_populated_primitive_container sample_operations (fresh_state always_down)
  = (Raise (MarketError 503), asked (fresh_state always_down) (HistoryRequest "ETHBTC"))
  ∧ ∃ st',
      get_populated_primitive_container sample_operations (closed_exchange_state)
      = (Raise (MarketError 418), st')
      ∧ lists st' = <[ops_ohlcv_fields sample_operations := ["open"; "close"] ++ ["weight"]]>
                      (lists closed_exchange_state)
      ∧ requests st' = requests closed_exchange_state ++ [TickersRequest]
      ∧ obtainer st' = obtainer closed_exchange_state.
Proof.
  split.
  - apply (proj1 (build_failures sample_operations (fresh_state always_down))); reflexivity.
  - apply (proj2 (build_failures sample_operations closed_exchange_state)
             (sample_kline 1 2) [sample_kline 3 4; sample_kline 5 6]).
    + reflexivity.
    + by vm_compute.
    + reflexivity.
Defined.

(** X20: when a build completes, the container it returns has the asset
    lists of the operations as its first two axes, the field list of the
    caller followed by the weight entry as its field axis, and the index
    numbers 0, 1, ... of the example history as its last axis. *)
Theorem build_axes (self : PrimitiveDataContainerOperations) (st st' : State)
    (dc : DataArray) (fields : list string) :
  lists st !! ops_ohlcv_fields self = Some fields →
  get_populated_primitive_container self st = (Ok dc, st') →
  ∃ example st1,
    initialize_example st = (Ok example, st1)
    ∧ coord_base_assets dc = ops_base_assets self
    ∧ coord_reference_assets dc = ops_reference_assets self
    ∧ coord_ohlcv_fields dc = fields ++ ["weight"]
    ∧ coord_index_number dc = Z.of_nat <$> seq 0 (length example).
Proof.
  intros Hfields.
  unfold get_populated_primitive_container,
    get_dimension_coordinates_from_fields_and_assets, get_depth_of_indices, bind.
  destruct (initialize_example st) as [[example|e] st1] eqn:Hinit; [|done].
  assert (lists st1 = lists st) as Hsame.
  { destruct (initialize_example_outcomes st) as [(k & t & Heq)|[(e' & Heq)|(h & Heq)]];
      rewrite Heq in Hinit; try done; by injection Hinit as _ <-. }
  run. unfold list_append. rewrite Hsame, Hfields.
  unfold set_coords_dimensions_in_empty_container, bind, read_list. simpl.
  rewrite lookup_insert_eq. run.
  unfold populate_container, bind. simpl.
  destruct (get_historical_data_relevant_coins_from_base_and_reference_assets _ _ _)
    as [[data|e] st2]; [|done].
  destruct (populate_loop _ _ _ _ _) as [[dc1|e] st3] eqn:Hloop; [|done].
  intros [= <- _].
  apply populate_loop_coordinates in Hloop as (Hb & Hr & Hf & Hi). simpl in *.
  exists example, st1. rewrite range_from_zero in Hi. done.
Qed.

Lemma build_axes_witness :
  ∃ example st1,
    initialize_example (fresh_state always_sample) = (Ok example, st1)
    ∧ coord_base_assets
        (get_populated_container_of_sample) = ops_base_assets sample_operations
    ∧ coord_reference_assets
        (get_populated_container_of_sample) = ops_reference_assets sample_operations
    ∧ coord_ohlcv_fields (get_populated_container_of_sample) = ["open"; "close"] ++ ["weight"]
    ∧ coord_index_number (get_populated_container_of_sample)
      = Z.of_nat <$> seq 0 (length example).
Proof.
  apply (build_axes sample_operations (fresh_state always_sample)
           (get_populated_primitive_container sample_operations (fresh_state always_sample)).2).
  - by vm_compute.
  - vm_compute. reflexivity.
Defined.

(** ** The bulk fetch without tickers *)

(** X21: the bulk fetch asks for the tickers first.  When that call fails,
    its error is the outcome and no history has been asked for; when the
    pool lists the concatenation of none of the combinations, the outcome is
    the empty dictionary and again no history has been asked for. *)
Theorem bulk_fetch_without_listed_pairs
    (base_assets reference_assets : list string) (st : State) :
  (∀ e,
     harmonizer_get_all_raw_tickers (market_harmonizer (obtainer st)) (length (requests st))
     = Raise e →
     get_historical_data_relevant_coins_from_base_and_reference_assets
       base_assets reference_assets st
     = (Raise e, asked st TickersRequest))
  ∧ (∀ pool,
       harmonizer_get_all_raw_tickers (market_harmonizer (obtainer st)) (length (requests st))
       = Ok pool →
       (∀ b r raw_ticker, b ∈ base_assets → r ∈ reference_assets → raw_ticker ∈ pool →
          symbol raw_ticker ≠ b +:+ r) →
       get_historical_data_relevant_coins_from_base_and_reference_assets
         base_assets reference_assets st
       = (Ok [], asked st TickersRequest)).
Proof.
  unfold get_historical_data_relevant_coins_from_base_and_reference_assets,
    get_all_raw_tickers, bind, ask.
  split.
  - intros e Hdown. by rewrite Hdown.
  - intros pool Hpool Hnone. rewrite Hpool.
    assert (tickers_to_capture base_assets reference_assets pool = []) as ->; [|done].
    rewrite tickers_to_capture_as_filter.
    destruct (filter _ _) as [|[b r] rest] eqn:Hfilter; [done|]. exfalso.
    assert ((b, r) ∈ filter (fun p => Is_true (existsb (fun raw_ticker =>
                                String.eqb (p.1 +:+ p.2) (symbol raw_ticker)) pool))
                        (list_prod base_assets reference_assets)) as Hin.
    { rewrite Hfilter. by left. }
    apply list_elem_of_filter in Hin as [Hlisted Hprod]. simpl in Hlisted.
    apply list_elem_of_In, in_prod_iff in Hprod as [Hb Hr].
    apply Is_true_true, symbol_listed in Hlisted as (raw_ticker & Ht & Hsym).
    apply (Hnone b r raw_ticker); [by apply list_elem_of_In|by apply list_elem_of_In|done|done].
Qed.

Lemma bulk_fetch_without_listed_pairs_witness :
  get_historical_data_relevant_coins_from_base_and_reference_assets ["ETH"] ["BTC"]
    closed_exchange_state
  = (Raise (MarketError 418), asked closed_exchange_state TickersRequest)
  ∧ get_historical_data_relevant_coins_from_base_and_reference_assets ["XRP"] ["BTC"]
      resolved_state
    = (Ok [], asked resolved_state TickersRequest).
Proof.
  split.
  - apply (proj1 (bulk_fetch_without_listed_pairs ["ETH"] ["BTC"] closed_exchange_state)).
    reflexivity.
  - apply (proj2 (bulk_fetch_without_listed_pairs ["XRP"] ["BTC"] resolved_state) sample_pool).
    + reflexivity.
    + intros b r raw_ticker Hb Hr Ht.
      apply list_elem_of_singleton in Hb as ->. apply list_elem_of_singleton in Hr as ->.
      repeat (apply elem_of_cons in Ht as [->|Ht]; [discriminate|]).
      by apply elem_of_nil in Ht.
Defined.
